(** * norm-my-py: the Python norminette (main.py)

    A shallow embedding of [PythonNorminette]: the two rule checks over
    the syntax tree, the flake8 adapter, the per-file checker, the
    reporter and the runner, followed by the properties of each.

    Conventions.  Python [int] is [Z]; [str] is [string] (a sequence of
    bytes: the ASCII range of Python text); a Python list is a [list];
    [None] is [None] of [option].  A method that prints returns the
    printed lines next to its result.  What the program obtains from
    outside its own source (the file system, the parser, the flake8
    process, [inspect.cleandoc]) is a field of the record [World]. *)

From Stdlib Require Import ZArith List String Ascii Bool Arith Lia.
From Stdlib Require Import Permutation Sorted DecimalString DecimalPos.
Import ListNotations.

Local Open Scope list_scope.
Local Open Scope string_scope.

(* ===================================================================== *)
(** ** Python strings: the [str] methods the program calls *)
(* ===================================================================== *)

Module Str.

(** [s.startswith(p)] *)
Definition startswith (s p : string) : bool := String.prefix p s.

(** [s.endswith(p)] *)
Definition endswith (s p : string) : bool :=
  let n := String.length s in
  let m := String.length p in
  (m <=? n)%nat && String.eqb (substring (n - m) m s) p.

(** [c * n] for a one-character string [c] *)
Fixpoint repeat (c : string) (n : nat) : string :=
  match n with
  | O => EmptyString
  | S k => c ++ repeat c k
  end.

(** Characters removed by [str.strip()]: the white space of the ASCII
    range (tab, line feed, vertical tab, form feed, carriage return,
    the four separators 28..31 and the space). *)
Definition isspace (c : ascii) : bool :=
  let n := nat_of_ascii c in
  ((9 <=? n) && (n <=? 13) || (28 <=? n) && (n <=? 32))%nat.

Fixpoint lstrip (s : string) : string :=
  match s with
  | String c r => if isspace c then lstrip r else s
  | EmptyString => EmptyString
  end.

(** [rstrip] keeps a character when it is not white space or when something
    is kept after it. *)
Fixpoint rstrip (s : string) : string :=
  match s with
  | EmptyString => EmptyString
  | String c r =>
      match rstrip r with
      | EmptyString => if isspace c then EmptyString else String c EmptyString
      | r' => String c r'
      end
  end.

(** [s.strip()] *)
Definition strip (s : string) : string := rstrip (lstrip s).

(** [s.split(sep)] for a one-character separator: every occurrence
    splits, and the result is never empty. *)
Fixpoint split (sep : ascii) (s : string) : list string :=
  match s with
  | EmptyString => [EmptyString]
  | String c r =>
      if Ascii.eqb c sep then EmptyString :: split sep r
      else match split sep r with
           | h :: t => String c h :: t
           | [] => [String c EmptyString]
           end
  end.

(** [s.split(sep, maxsplit)]: at most [maxsplit] splits, from the left. *)
Fixpoint splitn (sep : ascii) (maxsplit : nat) (s : string) : list string :=
  match maxsplit with
  | O => [s]
  | S k =>
      match s with
      | EmptyString => [EmptyString]
      | String c r =>
          if Ascii.eqb c sep then EmptyString :: splitn sep k r
          else match splitn sep maxsplit r with
               | h :: t => String c h :: t
               | [] => [String c EmptyString]
               end
      end
  end.

End Str.

(** The escape character of the colour codes. *)
Definition ESC : string := String (ascii_of_nat 27) EmptyString.

(* ===================================================================== *)
(** ** NormError *)
(* ===================================================================== *)

Record NormError : Type := mkNormError {
  file : string;
  line : Z;
  col : Z;
  code : string;
  message : string;
  severity : string
}.

(** The constructor call of the source, [severity] left at its default. *)
Definition NormError_ (file : string) (line col : Z) (code message : string)
  : NormError :=
  mkNormError file line col code message "Error".

Definition NormError_eq_dec (a b : NormError) : {a = b} + {a <> b}.
Proof.
  decide equality; first [ apply string_dec | apply Z.eq_dec ].
Defined.

(* ===================================================================== *)
(** ** The syntax tree of the [ast] module *)
(* ===================================================================== *)

(** The value of a [Constant] node: a [str] or anything else. *)
Inductive constant : Type :=
| CStr (s : string)
| COther.

(** [node] holds the statement and expression objects.  The classes the
    program tests for, and those [ast.get_docstring] looks at, have a
    constructor of their own; [Lambda] is there because it owns an
    [arguments] object; every other class is [Other] with its child
    nodes in field order.  [arguments] and [arg] are the classes of the
    same names.  The fields are those of Python 3.8 to 3.11; the
    [type_params] of later versions hold no function or class. *)
#[warnings="-register-all"]
Inductive node : Type :=
| Module (body : list node)
| FunctionDef (d : funcdef)
| AsyncFunctionDef (d : funcdef)
| ClassDef (d : classdef)
| Expr (value : node)
| Constant (value : constant)
| Lambda (args : arguments) (body : node)
| Other (children : list node)
with funcdef : Type :=
| mk_funcdef (name : string) (args : arguments) (body : list node)
    (decorator_list : list node) (returns : option node)
    (lineno col_offset : Z)
with classdef : Type :=
| mk_classdef (name : string) (bases keywords body : list node)
    (decorator_list : list node) (lineno col_offset : Z)
with arguments : Type :=
| mk_arguments (posonlyargs args : list arg) (vararg : option arg)
    (kwonlyargs : list arg) (kw_defaults : list (option node))
    (kwarg : option arg) (defaults : list node)
with arg : Type :=
| mk_arg (arg_name : string) (annotation : option node).

(** Any object of the tree: what [ast.walk] yields. *)
Inductive AST : Type :=
| ANode (n : node)
| AArguments (a : arguments)
| AArg (a : arg).

(** Attribute access. *)
Module Fn.
Definition name (d : funcdef) : string :=
  let 'mk_funcdef n _ _ _ _ _ _ := d in n.
Definition args (d : funcdef) : arguments :=
  let 'mk_funcdef _ a _ _ _ _ _ := d in a.
Definition body (d : funcdef) : list node :=
  let 'mk_funcdef _ _ b _ _ _ _ := d in b.
Definition decorator_list (d : funcdef) : list node :=
  let 'mk_funcdef _ _ _ l _ _ _ := d in l.
Definition returns (d : funcdef) : option node :=
  let 'mk_funcdef _ _ _ _ r _ _ := d in r.
Definition lineno (d : funcdef) : Z :=
  let 'mk_funcdef _ _ _ _ _ l _ := d in l.
Definition col_offset (d : funcdef) : Z :=
  let 'mk_funcdef _ _ _ _ _ _ c := d in c.
End Fn.

Module Cls.
Definition name (d : classdef) : string :=
  let 'mk_classdef n _ _ _ _ _ _ := d in n.
Definition bases (d : classdef) : list node :=
  let 'mk_classdef _ b _ _ _ _ _ := d in b.
Definition keywords (d : classdef) : list node :=
  let 'mk_classdef _ _ k _ _ _ _ := d in k.
Definition body (d : classdef) : list node :=
  let 'mk_classdef _ _ _ b _ _ _ := d in b.
Definition decorator_list (d : classdef) : list node :=
  let 'mk_classdef _ _ _ _ l _ _ := d in l.
Definition lineno (d : classdef) : Z :=
  let 'mk_classdef _ _ _ _ _ l _ := d in l.
Definition col_offset (d : classdef) : Z :=
  let 'mk_classdef _ _ _ _ _ _ c := d in c.
End Cls.

Module Args.
Definition posonlyargs (a : arguments) : list arg :=
  let 'mk_arguments p _ _ _ _ _ _ := a in p.
Definition args (a : arguments) : list arg :=
  let 'mk_arguments _ l _ _ _ _ _ := a in l.
Definition vararg (a : arguments) : option arg :=
  let 'mk_arguments _ _ v _ _ _ _ := a in v.
Definition kwonlyargs (a : arguments) : list arg :=
  let 'mk_arguments _ _ _ k _ _ _ := a in k.
Definition kw_defaults (a : arguments) : list (option node) :=
  let 'mk_arguments _ _ _ _ d _ _ := a in d.
Definition kwarg (a : arguments) : option arg :=
  let 'mk_arguments _ _ _ _ _ k _ := a in k.
Definition defaults (a : arguments) : list node :=
  let 'mk_arguments _ _ _ _ _ _ d := a in d.
End Args.

Module Arg.
Definition annotation (a : arg) : option node := let 'mk_arg _ t := a in t.
Definition arg (a : arg) : string := let 'mk_arg n _ := a in n.
End Arg.

(** *** [ast.iter_child_nodes] and [ast.walk] *)

Definition opt_child {A : Type} (inj : A -> AST) (o : option A) : list AST :=
  match o with
  | Some x => [inj x]
  | None => []
  end.

(** The direct children, in the order of the class's [_fields]; a [None]
    field or list item is not a node and is passed over. *)
Definition iter_child_nodes (t : AST) : list AST :=
  match t with
  | ANode (Module body) => map ANode body
  | ANode (FunctionDef d) | ANode (AsyncFunctionDef d) =>
      AArguments (Fn.args d)
        :: map ANode (Fn.body d)
        ++ map ANode (Fn.decorator_list d)
        ++ opt_child ANode (Fn.returns d)
  | ANode (ClassDef d) =>
      map ANode (Cls.bases d) ++ map ANode (Cls.keywords d)
        ++ map ANode (Cls.body d) ++ map ANode (Cls.decorator_list d)
  | ANode (Expr value) => [ANode value]
  | ANode (Constant _) => []
  | ANode (Lambda a body) => [AArguments a; ANode body]
  | ANode (Other children) => map ANode children
  | AArguments a =>
      map AArg (Args.posonlyargs a)
        ++ map AArg (Args.args a)
        ++ opt_child AArg (Args.vararg a)
        ++ map AArg (Args.kwonlyargs a)
        ++ flat_map (opt_child ANode) (Args.kw_defaults a)
        ++ opt_child AArg (Args.kwarg a)
        ++ map ANode (Args.defaults a)
  | AArg a => opt_child ANode (Arg.annotation a)
  end.

(** The number of objects in a tree: the fuel of the traversals. *)
Definition opt_size {A : Type} (f : A -> nat) (o : option A) : nat :=
  match o with
  | Some x => f x
  | None => 0
  end.

Fixpoint size_node (n : node) : nat :=
  match n with
  | Module body => S (list_sum (map size_node body))
  | FunctionDef d | AsyncFunctionDef d => size_funcdef d
  | ClassDef d => size_classdef d
  | Expr value => S (size_node value)
  | Constant _ => 1
  | Lambda a body => S (size_arguments a + size_node body)
  | Other children => S (list_sum (map size_node children))
  end
with size_funcdef (d : funcdef) : nat :=
  match d with
  | mk_funcdef _ a body decos returns _ _ =>
      S (size_arguments a + list_sum (map size_node body)
         + list_sum (map size_node decos) + opt_size size_node returns)
  end
with size_classdef (d : classdef) : nat :=
  match d with
  | mk_classdef _ bases keywords body decos _ _ =>
      S (list_sum (map size_node bases) + list_sum (map size_node keywords)
         + list_sum (map size_node body) + list_sum (map size_node decos))
  end
with size_arguments (a : arguments) : nat :=
  match a with
  | mk_arguments posonly args vararg kwonly kw_defaults kwarg defaults =>
      S (list_sum (map size_arg posonly) + list_sum (map size_arg args)
         + opt_size size_arg vararg + list_sum (map size_arg kwonly)
         + list_sum (map (opt_size size_node) kw_defaults)
         + opt_size size_arg kwarg + list_sum (map size_node defaults))
  end
with size_arg (a : arg) : nat :=
  match a with
  | mk_arg _ annotation => S (opt_size size_node annotation)
  end.

Definition size (t : AST) : nat :=
  match t with
  | ANode n => size_node n
  | AArguments a => size_arguments a
  | AArg a => size_arg a
  end.

Definition total_size (todo : list AST) : nat := list_sum (map size todo).

(** [ast.walk]: a queue, the head is taken, its children are put at the
    end, and the head is yielded.  One unit of fuel per object taken. *)
Fixpoint walk_todo (fuel : nat) (todo : list AST) : list AST :=
  match fuel, todo with
  | S fuel', node :: rest =>
      node :: walk_todo fuel' (rest ++ iter_child_nodes node)
  | _, _ => []
  end.

Definition walk (tree : AST) : list AST := walk_todo (size tree) [tree].

(** The tree's objects in depth-first order, with a stack in place of the
    queue: the reference enumeration the queue order is compared with. *)
Fixpoint preorder_todo (fuel : nat) (todo : list AST) : list AST :=
  match fuel, todo with
  | S fuel', node :: rest =>
      node :: preorder_todo fuel' (iter_child_nodes node ++ rest)
  | _, _ => []
  end.

Definition preorder (tree : AST) : list AST := preorder_todo (size tree) [tree].

(** [subtree t c]: [c] is [t] or lies below it. *)
Inductive subtree (t : AST) : AST -> Prop :=
| subtree_here : subtree t t
| subtree_child : forall p c,
    subtree t p -> In c (iter_child_nodes p) -> subtree t c.

(** The traversals of a whole queue, with exactly the fuel it needs. *)
Definition walk_queue (todo : list AST) : list AST :=
  walk_todo (total_size todo) todo.

Definition preorder_queue (todo : list AST) : list AST :=
  preorder_todo (total_size todo) todo.

(* ===================================================================== *)
(** ** The world outside the source *)
(* ===================================================================== *)

(** What [open(...).read()] followed by [ast.parse] does for a path. *)
Inductive parse_result : Type :=
| Parsed (tree : AST)
| RaisesSyntaxError (msg : string) (lineno offset : option Z)
| RaisesException (text : string).

(** What [subprocess.run(['flake8', filepath, format_str], ...)] does. *)
Inductive process_result : Type :=
| Completed (stdout : string)
| RaisesFileNotFoundError
| RaisesOther (text : string).

Record World : Type := mkWorld {
  (** [inspect.cleandoc], applied by [ast.get_docstring] *)
  cleandoc : string -> string;
  (** reading and parsing the file at a path *)
  read_and_parse : string -> parse_result;
  (** running flake8 on a path *)
  run_flake8 : string -> process_result;
  (** [Path(p).is_file()], [Path(p).is_dir()], [Path(p).suffix],
      [str(Path(p))] and [[str(f) for f in Path(p).rglob('*.py')]] *)
  is_file : string -> bool;
  is_dir : string -> bool;
  suffix : string -> string;
  path_str : string -> string;
  rglob_py : string -> list string
}.

(* ===================================================================== *)
(** ** The type-hint check *)
(* ===================================================================== *)

(** [name.startswith('__') and name.endswith('__')] *)
Definition is_dunder (name : string) : bool :=
  Str.startswith name "__" && Str.endswith name "__".

Definition missing_return (filepath : string) (d : funcdef) : NormError :=
  NormError_ filepath (Fn.lineno d) (Fn.col_offset d) "TYPE_HINT"
    ("Function '" ++ Fn.name d ++ "' missing return " ++ "type hint").

Definition missing_arg_hint (filepath : string) (d : funcdef) (a : arg)
  : NormError :=
  NormError_ filepath (Fn.lineno d) (Fn.col_offset d) "TYPE_HINT"
    ("Argument '" ++ Arg.arg a ++ "' in function " ++
     "'" ++ Fn.name d ++ "' missing type hint").

(** The body of [for arg in node.args.args], on the list [errors]. *)
Definition type_hints_arg (filepath : string) (d : funcdef)
    (errors : list NormError) (a : arg) : list NormError :=
  if String.eqb (Arg.arg a) "self" || String.eqb (Arg.arg a) "cls" then errors
  else match Arg.annotation a with
       | None => errors ++ [missing_arg_hint filepath d a]
       | Some _ => errors
       end.

(** The body of [for node in ast.walk(tree)], on the list [errors]. *)
Definition type_hints_node (filepath : string) (errors : list NormError)
    (node : AST) : list NormError :=
  match node with
  | ANode (FunctionDef d) =>
      if is_dunder (Fn.name d) then errors
      else
        let errors :=
          match Fn.returns d with
          | None => (errors ++ [missing_return filepath d])%list
          | Some _ => errors
          end in
        fold_left (type_hints_arg filepath d) (Args.args (Fn.args d)) errors
  | _ => errors
  end.

Definition _check_type_hints (tree : AST) (filepath : string)
  : list NormError :=
  fold_left (type_hints_node filepath) (walk tree) [].

(* ===================================================================== *)
(** ** The docstring check *)
(* ===================================================================== *)

(** [ast.get_docstring(node)] on the [body] of a class or function: the
    cleaned text of a first statement that is a string constant. *)
Definition get_docstring (w : World) (body : list node) : option string :=
  match body with
  | Expr (Constant (CStr text)) :: _ => Some (cleandoc w text)
  | _ => None
  end.

(** [not ast.get_docstring(node)]: [None] and the empty string are false. *)
Definition no_docstring (w : World) (body : list node) : bool :=
  match get_docstring w body with
  | None => true
  | Some text => String.eqb text EmptyString
  end.

Definition class_missing_docstring (filepath : string) (d : classdef)
  : NormError :=
  NormError_ filepath (Cls.lineno d) (Cls.col_offset d) "DOCSTRING"
    ("Class '" ++ Cls.name d ++ "' missing docstring").

Definition function_missing_docstring (filepath : string) (d : funcdef)
  : NormError :=
  NormError_ filepath (Fn.lineno d) (Fn.col_offset d) "DOCSTRING"
    ("Function '" ++ Fn.name d ++ "' missing docstring").

Definition is_magic (name : string) : bool :=
  Str.startswith name "__" && Str.endswith name "__"
  && negb (String.eqb name "__init__").

(** The body of [for node in ast.walk(tree)], on the list [errors]. *)
Definition docstrings_node (w : World) (filepath : string)
    (errors : list NormError) (node : AST) : list NormError :=
  match node with
  | ANode (ClassDef d) =>
      if no_docstring w (Cls.body d)
      then errors ++ [class_missing_docstring filepath d]
      else errors
  | ANode (FunctionDef d) =>
      if is_magic (Fn.name d) then errors
      else if no_docstring w (Fn.body d)
      then errors ++ [function_missing_docstring filepath d]
      else errors
  | _ => errors
  end.

Definition _check_docstrings (w : World) (tree : AST) (filepath : string)
  : list NormError :=
  fold_left (docstrings_node w filepath) (walk tree) [].

(* ===================================================================== *)
(** ** Built-ins: [int], [repr], [str] of an integer, format widths *)
(* ===================================================================== *)

(** The outcome of an expression that may raise: the value, or the text
    of the exception. *)
Inductive result (A : Type) : Type :=
| Ok (value : A)
| Raise (text : string).
Arguments Ok {A} value.
Arguments Raise {A} text.

Module Py.

Definition LF : ascii := ascii_of_nat 10.
Definition quote : ascii := ascii_of_nat 39.
Definition dquote : ascii := ascii_of_nat 34.
Definition backslash : ascii := ascii_of_nat 92.

Definition is_digit (c : ascii) : bool :=
  let n := nat_of_ascii c in ((48 <=? n) && (n <=? 57))%nat.

Definition digit_value (c : ascii) : Z := Z.of_nat (nat_of_ascii c - 48).

(** White space for [int]: the six characters of C's [isspace]. *)
Definition c_isspace (c : ascii) : bool :=
  let n := nat_of_ascii c in ((n =? 32) || (9 <=? n) && (n <=? 13))%nat.

Fixpoint skip_space (s : string) : string :=
  match s with
  | String c r => if c_isspace c then skip_space r else s
  | EmptyString => EmptyString
  end.

(** An optional sign: whether it is a minus, and what follows it. *)
Definition split_sign (s : string) : bool * string :=
  match s with
  | String c r =>
      if Ascii.eqb c "+" then (false, r)
      else if Ascii.eqb c "-" then (true, r)
      else (false, s)
  | EmptyString => (false, s)
  end.

Definition starts_with_underscore (s : string) : bool :=
  match s with
  | String c _ => Ascii.eqb c "_"
  | EmptyString => false
  end.

(** The scan over digits and underscores, up to the first other
    character: the value, the number of digits and what is left, or
    [None] for two underscores in a row or an underscore at the end of
    the run. *)
Fixpoint scan (acc : Z) (ndigits : nat) (after_underscore : bool) (s : string)
  : option (Z * nat * string) :=
  match s with
  | EmptyString => if after_underscore then None else Some (acc, ndigits, s)
  | String c r =>
      if is_digit c
      then scan (10 * acc + digit_value c)%Z (S ndigits) false r
      else if Ascii.eqb c "_"
      then if after_underscore then None else scan acc ndigits true r
      else if after_underscore then None else Some (acc, ndigits, s)
  end.

(** The default of [sys.get_int_max_str_digits()]. *)
Definition max_str_digits : nat := 4300.

Definition hex_digit (n : nat) : ascii :=
  if (n <? 10)%nat then ascii_of_nat (48 + n) else ascii_of_nat (87 + n).

Fixpoint mem (c : ascii) (s : string) : bool :=
  match s with
  | EmptyString => false
  | String c' r => Ascii.eqb c c' || mem c r
  end.

Fixpoint escape (q : ascii) (s : string) : string :=
  match s with
  | EmptyString => EmptyString
  | String c r =>
      let n := nat_of_ascii c in
      (if Ascii.eqb c backslash || Ascii.eqb c q
       then String backslash (String c EmptyString)
       else if (n =? 9)%nat then String backslash "t"
       else if (n =? 10)%nat then String backslash "n"
       else if (n =? 13)%nat then String backslash "r"
       else if ((n <? 32) || (n =? 127))%nat
       then String backslash
              (String "x" (String (hex_digit (n / 16))
                             (String (hex_digit (n mod 16)) EmptyString)))
       else String c EmptyString)
      ++ escape q r
  end.

(** [repr(s)]: single quotes, unless [s] holds one and no double quote. *)
Definition repr (s : string) : string :=
  let q := if mem quote s && negb (mem dquote s) then dquote else quote in
  String q (escape q s ++ String q EmptyString).

(** [str(n)] *)
Definition str_of_int (n : Z) : string := NilZero.string_of_int (Z.to_int n).

Definition invalid_literal (s : string) : string :=
  "invalid literal for int() with base 10: " ++ substring 0 200 (repr s).

Definition exceeds_limit (ndigits : nat) : string :=
  "Exceeds the limit (" ++ str_of_int (Z.of_nat max_str_digits)
    ++ " digits) for integer string conversion: value has "
    ++ str_of_int (Z.of_nat ndigits)
    ++ " digits; use sys.set_int_max_str_digits() to increase the limit".

(** [int(s)] in base 10 on ASCII text, as Python 3.11 and later read
    it: white space is skipped, then one optional sign; the number may
    not start with an underscore; the digits are scanned; a run of more
    than 4300 digits raises at once; after the digits only white space
    may follow.  Every other failure is the same [ValueError], whose
    text shows at most 200 characters of the literal. *)
Definition int (s : string) : result Z :=
  let (negative, t) := split_sign (skip_space s) in
  if starts_with_underscore t then Raise (invalid_literal s)
  else
    match scan 0 0 false t with
    | None => Raise (invalid_literal s)
    | Some (v, ndigits, rest) =>
        if (ndigits =? 0)%nat then Raise (invalid_literal s)
        else if (max_str_digits <? ndigits)%nat
        then Raise (exceeds_limit ndigits)
        else if String.eqb (skip_space rest) EmptyString
        then Ok (if negative then (- v)%Z else v)
        else Raise (invalid_literal s)
    end.

(** [f"{s:w}"] for a string and [f"{n:w}"] for an integer *)
Definition ljust (width : nat) (s : string) : string :=
  s ++ Str.repeat " " (width - String.length s).
Definition rjust (width : nat) (s : string) : string :=
  Str.repeat " " (width - String.length s) ++ s.

(** [x or 0] for an optional integer *)
Definition or0 (o : option Z) : Z :=
  match o with
  | Some n => if (n =? 0)%Z then 0%Z else n
  | None => 0%Z
  end.

End Py.

(* ===================================================================== *)
(** ** The flake8 adapter *)
(* ===================================================================== *)

Definition flake8_not_installed : string :=
  ESC ++ "[33mWarning: flake8 not installed. " ++
  "Install with: pip install flake8" ++ ESC ++ "[0m".

Definition flake8_failed (e : string) : string :=
  ESC ++ "[33mWarning: flake8 check failed: " ++ e ++ ESC ++ "[0m".

(** The body of [for line in ...], on the list [errors]; [int] may raise. *)
Definition flake8_line (errors : list NormError) (line : string)
  : result (list NormError) :=
  if String.eqb line EmptyString then Ok errors
  else
    let parts := Str.splitn ":" 3 line in
    if (4 <=? List.length parts)%nat then
      let file_path := nth 0 parts EmptyString in
      match Py.int (nth 1 parts EmptyString) with
      | Raise e => Raise e
      | Ok line_num =>
          match Py.int (nth 2 parts EmptyString) with
          | Raise e => Raise e
          | Ok col_num =>
              let msg_parts := Str.splitn " " 1 (Str.strip (nth 3 parts EmptyString)) in
              let code := nth 0 msg_parts EmptyString in
              let message :=
                if (1 <? List.length msg_parts)%nat
                then nth 1 msg_parts EmptyString else EmptyString in
              Ok (errors ++ [NormError_ file_path line_num col_num code message])%list
          end
      end
    else Ok errors.

(** The loop over the lines.  [errors] is one list object that the loop
    appends to: when a line raises, what was appended before stays. *)
Fixpoint flake8_lines (errors : list NormError) (lines : list string)
  : list NormError * option string :=
  match lines with
  | [] => (errors, None)
  | line :: rest =>
      match flake8_line errors line with
      | Ok errors' => flake8_lines errors' rest
      | Raise e => (errors, Some e)
      end
  end.

(** Returns the errors and the lines printed. *)
Definition _check_flake8 (w : World) (filepath : string)
  : list NormError * list string :=
  match run_flake8 w filepath with
  | RaisesFileNotFoundError => ([], [flake8_not_installed])
  | RaisesOther e => ([], [flake8_failed e])
  | Completed stdout =>
      if String.eqb stdout EmptyString then ([], [])
      else
        match flake8_lines [] (Str.split Py.LF (Str.strip stdout)) with
        | (errors, None) => (errors, [])
        | (errors, Some e) => (errors, [flake8_failed e])
        end
  end.

(* ===================================================================== *)
(** ** The checker of one file *)
(* ===================================================================== *)

Definition syntax_error (filepath msg : string) (lineno offset : option Z)
  : NormError :=
  NormError_ filepath (Py.or0 lineno) (Py.or0 offset) "SYNTAX"
    ("Syntax error: " ++ msg).

Definition fatal_error (filepath e : string) : NormError :=
  NormError_ filepath 0 0 "FATAL" ("Cannot check file: " ++ e).

(** Returns the errors and the lines printed. *)
Definition check_file (w : World) (filepath : string)
  : list NormError * list string :=
  match read_and_parse w filepath with
  | Parsed tree =>
      let errors := ([] ++ _check_type_hints tree filepath)%list in
      let errors := (errors ++ _check_docstrings w tree filepath)%list in
      let (linted, printed) := _check_flake8 w filepath in
      ((errors ++ linted)%list, printed)
  | RaisesSyntaxError msg lineno offset =>
      ([syntax_error filepath msg lineno offset], [])
  | RaisesException e =>
      ([fatal_error filepath e], [])
  end.

(* ===================================================================== *)
(** ** The reporter *)
(* ===================================================================== *)

(** The sort key [(x.line, x.col)] and the order of tuples. *)
Definition key (x : NormError) : Z * Z := (line x, col x).

Definition key_le (a b : Z * Z) : bool :=
  ((fst a <? fst b) || (fst a =? fst b) && (snd a <=? snd b))%Z.

(** [sorted(l, key=...)] is a stable sort; here by insertion, an element
    going in front of the first one whose key is not smaller. *)
Fixpoint insert (x : NormError) (l : list NormError) : list NormError :=
  match l with
  | [] => [x]
  | y :: r => if key_le (key x) (key y) then x :: l else y :: insert x r
  end.

Fixpoint sorted (l : list NormError) : list NormError :=
  match l with
  | [] => []
  | x :: r => insert x (sorted r)
  end.

(** The dict [files]: file paths in the order of their first error, each
    with its errors in the order they were appended. *)
Definition dict : Type := list (string * list NormError).

Fixpoint dict_in (k : string) (files : dict) : bool :=
  match files with
  | [] => false
  | (k', _) :: r => String.eqb k' k || dict_in k r
  end.

(** [files[k].append(error)] *)
Fixpoint dict_append (k : string) (error : NormError) (files : dict) : dict :=
  match files with
  | [] => []
  | (k', l) :: r =>
      if String.eqb k' k then (k', (l ++ [error])%list) :: r
      else (k', l) :: dict_append k error r
  end.

(** The body of [for error in errors]. *)
Definition group_error (files : dict) (error : NormError) : dict :=
  let files :=
    if dict_in (file error) files then files
    else (files ++ [(file error, [])])%list in
  dict_append (file error) error files.

Definition group_by_file (errors : list NormError) : dict :=
  fold_left group_error errors [].

Definition format_error (err : NormError) : string :=
  let color :=
    if String.eqb (severity err) "Error" then ESC ++ "[31m" else ESC ++ "[33m" in
  color ++ "Error:" ++ Py.ljust 12 (code err) ++ " " ++ ESC ++ "[0m" ++
  "(line: " ++ Py.rjust 4 (Py.str_of_int (line err)) ++
  ", col: " ++ Py.rjust 3 (Py.str_of_int (col err)) ++ "): " ++
  message err.

(** The lines printed for one item of [files.items()]. *)
Definition print_file (filepath : string) (file_errors : list NormError)
  : list string :=
  (ESC ++ "[1m" ++ filepath ++ ESC ++ "[0m")
    :: (map format_error (sorted file_errors) ++ [EmptyString])%list.

(** Returns the lines printed. *)
Definition print_errors (errors : list NormError) : list string :=
  match errors with
  | [] => []
  | _ =>
      flat_map (fun item => print_file (fst item) (snd item))
        (group_by_file errors)
  end.

(* ===================================================================== *)
(** ** The runner *)
(* ===================================================================== *)

Record PythonNorminette : Type := mkPythonNorminette {
  self_errors : list NormError;
  files_checked : Z;
  total_errors : Z
}.

(** [__init__] *)
Definition init : PythonNorminette := mkPythonNorminette [] 0 0.

(** The state of the loop of [run]: [self.files_checked], [all_errors]
    and the lines printed so far. *)
Definition run_state : Type := (Z * list NormError * list string)%type.

(** [self.files_checked += 1], then [check_file] and [extend]. *)
Definition run_file (w : World) (st : run_state) (filepath : string)
  : run_state :=
  let '(checked, all_errors, printed) := st in
  let (errors, out) := check_file w filepath in
  ((checked + 1)%Z, (all_errors ++ errors)%list, (printed ++ out)%list).

(** The body of [for path_str in paths]. *)
Definition run_path (w : World) (st : run_state) (path : string) : run_state :=
  if is_file w path then
    if String.eqb (suffix w path) ".py" then run_file w st (path_str w path)
    else st
  else if is_dir w path then fold_left (run_file w) (rglob_py w path) st
  else st.

Definition rule : string := ESC ++ "[1m" ++ Str.repeat "=" 60 ++ ESC ++ "[0m".

Definition norme_ok (checked : Z) : string :=
  ESC ++ "[32m✓ Norme: OK! " ++
  "(" ++ Py.str_of_int checked ++ " file(s) checked)" ++ ESC ++ "[0m".

Definition norme_ko (total checked : Z) : string :=
  ESC ++ "[31m✗ Norme: " ++ Py.str_of_int total ++ " error(s) " ++
  "in " ++ Py.str_of_int checked ++ " file(s)" ++ ESC ++ "[0m".

(** Returns the exit code, the object after the call and the lines
    printed. *)
Definition run (w : World) (self : PythonNorminette) (paths : list string)
  : Z * PythonNorminette * list string :=
  let '(checked, all_errors, printed) :=
    fold_left (run_path w) paths (files_checked self, [], []) in
  let total := Z.of_nat (List.length all_errors) in
  let self := mkPythonNorminette all_errors checked total in
  let printed := (printed ++ print_errors all_errors ++ [rule])%list in
  if (total_errors self =? 0)%Z
  then (0%Z, self, (printed ++ [norme_ok (files_checked self)])%list)
  else (1%Z, self,
        (printed ++ [norme_ko (total_errors self) (files_checked self)])%list).

(* ===================================================================== *)
(** ** The entry point *)
(* ===================================================================== *)

(** The lines printed when no path is given. *)
Definition usage : list string :=
  ["Usage: norminette_py <file_or_directory> [...]";
   String Py.LF "Example:";
   "  norminette_py my_file.py";
   "  norminette_py src/";
   "  norminette_py *.py"].

Definition banner : list string :=
  [ESC ++ "[1m" ++ Str.repeat "=" 60;
   "           PYTHON NORMINETTE - 42 School";
   Str.repeat "=" 60 ++ ESC ++ "[0m" ++ String Py.LF EmptyString].

(** [main], given [sys.argv]: returns the exit code of the process and
    the lines printed. *)
Definition main (w : World) (argv : list string) : Z * list string :=
  if (List.length argv <? 2)%nat then (1%Z, usage)
  else
    let norminette := init in
    let '(exit_code, _, printed) := run w norminette (tl argv) in
    (exit_code, (banner ++ printed)%list).

(** Reading and parsing the file succeeds. *)
Definition parses (w : World) (filepath : string) : bool :=
  match read_and_parse w filepath with
  | Parsed _ => true
  | _ => false
  end.

(** The path is neither a file with suffix [.py] nor a directory. *)
Definition skipped (w : World) (path : string) : Prop :=
  (is_file w path = true -> suffix w path <> ".py")
  /\ (is_file w path = false -> is_dir w path = false).

(* ===================================================================== *)
(** ** Vocabulary of the properties *)
(* ===================================================================== *)

(** A loop body that adds to the list it is given and does not read it. *)
Definition appends {A B : Type} (step : list B -> A -> list B) : Prop :=
  forall acc x, step acc x = (acc ++ step [] x)%list.

(** What a check adds when it visits one object, and what it yields on
    a run of objects. *)
Definition hints_at (filepath : string) (node : AST) : list NormError :=
  type_hints_node filepath [] node.

Definition hints_over (filepath : string) (nodes : list AST)
  : list NormError :=
  fold_left (type_hints_node filepath) nodes [].

Definition docs_at (w : World) (filepath : string) (node : AST)
  : list NormError :=
  docstrings_node w filepath [] node.

Definition docs_over (w : World) (filepath : string) (nodes : list AST)
  : list NormError :=
  fold_left (docstrings_node w filepath) nodes [].

(** A parameter the loop over [node.args.args] reports. *)
Definition reported (a : arg) : bool :=
  negb (String.eqb (Arg.arg a) "self" || String.eqb (Arg.arg a) "cls")
  && match Arg.annotation a with None => true | Some _ => false end.

(** The first statement of a body is a string constant. *)
Definition starts_with_docstring (body : list node) : Prop :=
  exists text rest, body = Expr (Constant (CStr text)) :: rest.

(** The body starts with a string constant whose cleaned text is not
    empty: what [ast.get_docstring] must find for the check to pass. *)
Definition documented (w : World) (body : list node) : Prop :=
  exists text rest,
    body = Expr (Constant (CStr text)) :: rest
    /\ cleandoc w text <> EmptyString.

(** The parameter passes the loop over [node.args.args] unreported. *)
Definition arg_passes (a : arg) : Prop :=
  Arg.annotation a <> None \/ Arg.arg a = "self" \/ Arg.arg a = "cls".

(** Every character of [s] passes the test. *)
Fixpoint all_chars (p : ascii -> bool) (s : string) : bool :=
  match s with
  | EmptyString => true
  | String c r => p c && all_chars p r
  end.

(** The number of occurrences of a character. *)
Fixpoint count_char (c : ascii) (s : string) : nat :=
  match s with
  | EmptyString => 0
  | String c' r => (if Ascii.eqb c' c then 1 else 0) + count_char c r
  end.

Definition not_space (c : ascii) : bool := negb (Str.isspace c).

Definition not_colon (c : ascii) : bool := negb (Ascii.eqb c ":").

(** The line flake8 writes for one violation under the format the
    adapter passes it, ['%(path)s:%(row)d:%(col)d: %(code)s %(text)s']. *)
Definition flake8_format (path : string) (row col : Z) (code text : string)
  : string :=
  path ++ ":" ++ Py.str_of_int row ++ ":" ++ Py.str_of_int col ++ ": "
    ++ code ++ " " ++ text.

(** The number of digits [str] writes for an integer. *)
Definition digit_count (n : Z) : nat :=
  String.length (Py.str_of_int (Z.abs n)).

(** The value of a run of decimal digits read from the left. *)
Fixpoint uint_value (acc : Z) (u : Decimal.uint) : Z :=
  match u with
  | Decimal.Nil => acc
  | Decimal.D0 r => uint_value (10 * acc + 0) r
  | Decimal.D1 r => uint_value (10 * acc + 1) r
  | Decimal.D2 r => uint_value (10 * acc + 2) r
  | Decimal.D3 r => uint_value (10 * acc + 3) r
  | Decimal.D4 r => uint_value (10 * acc + 4) r
  | Decimal.D5 r => uint_value (10 * acc + 5) r
  | Decimal.D6 r => uint_value (10 * acc + 6) r
  | Decimal.D7 r => uint_value (10 * acc + 7) r
  | Decimal.D8 r => uint_value (10 * acc + 8) r
  | Decimal.D9 r => uint_value (10 * acc + 9) r
  end%Z.

(** The distinct items of [l] that are not in [seen], each at its first
    occurrence. *)
Fixpoint first_seen (seen l : list string) : list string :=
  match l with
  | [] => []
  | k :: r =>
      if existsb (fun k' => String.eqb k' k) seen then first_seen seen r
      else k :: first_seen (seen ++ [k]) r
  end.

(** The files [run] checks, in order. *)
Definition checked_files (w : World) (paths : list string) : list string :=
  flat_map
    (fun path =>
       if is_file w path then
         if String.eqb (suffix w path) ".py" then [path_str w path] else []
       else if is_dir w path then rglob_py w path
       else [])
    paths.

(** The number of errors of all the files checked. *)
Definition aggregate_count (w : World) (paths : list string) : nat :=
  list_sum
    (map (fun f => List.length (fst (check_file w f))) (checked_files w paths)).

(** The errors of one file path among [errors], in order. *)
Definition errors_of (filepath : string) (errors : list NormError)
  : list NormError :=
  filter (fun e => String.eqb (file e) filepath) errors.

(** The errors at one position among [errors], in order. *)
Definition at_key (k : Z * Z) (errors : list NormError) : list NormError :=
  filter (fun e => (line e =? fst k)%Z && (col e =? snd k)%Z) errors.

(** The order of the report: line ascending, then column ascending. *)
Definition position_le (a b : NormError) : Prop :=
  (line a < line b \/ (line a = line b /\ col a <= col b))%Z.

(** [files.get(k)] *)
Fixpoint dict_get (k : string) (files : dict) : option (list NormError) :=
  match files with
  | [] => None
  | (k', l) :: r => if String.eqb k' k then Some l else dict_get k r
  end.

(** The dict [files] after the errors [done] have gone through the
    grouping loop: every file path once, each with its errors among
    [done], in order, and no path without an error. *)
Definition grouped (files : dict) (done : list NormError) : Prop :=
  NoDup (map fst files)
  /\ forall k,
      dict_get k files =
      match errors_of k done with
      | [] => None
      | l => Some l
      end.

(** What one output line of flake8 adds to an empty list. *)
Definition flake8_at (line : string) : list NormError :=
  match flake8_line [] line with
  | Ok errors => errors
  | Raise _ => []
  end.

(** The line is read without an exception. *)
Definition flake8_reads (line : string) : Prop :=
  exists errors, flake8_line [] line = Ok errors.

(* ===================================================================== *)
(** ** Sample trees and worlds *)
(* ===================================================================== *)

Module Samples.

Definition no_args : arguments := mk_arguments [] [] None [] [] None [].

Definition positional (l : list arg) : arguments :=
  mk_arguments [] l None [] [] None [].

Definition int_name : node := Other [Other []].

Definition docstring (s : string) : node := Expr (Constant (CStr s)).

(** A world with nothing in it: no file, no directory, no flake8. *)
Definition empty_world : World :=
  mkWorld (fun s => s) (fun _ => RaisesException "No such file")
    (fun _ => RaisesFileNotFoundError)
    (fun _ => false) (fun _ => false) (fun _ => EmptyString) (fun p => p)
    (fun _ => []).

(** One file [a.py] with the given parse result and flake8 result. *)
Definition one_file (p : parse_result) (f : process_result) : World :=
  mkWorld (fun s => s)
    (fun path => if String.eqb path "a.py" then p
                 else RaisesException "No such file")
    (fun _ => f)
    (fun path => String.eqb path "a.py") (fun _ => false)
    (fun path => if String.eqb path "a.py" then ".py" else EmptyString)
    (fun p => p) (fun _ => []).

(** [def f(x): return x] at line 1, column 0 *)
Definition def_f_x : funcdef :=
  mk_funcdef "f" (positional [mk_arg "x" None])
    [Other [Other [Other []]]] [] None 1 0.

Definition module_f_x : AST := ANode (Module [FunctionDef def_f_x]).

(** [def g(self, x: int, cls, y) -> int] with a docstring, at 4:4 *)
Definition def_g : funcdef :=
  mk_funcdef "g"
    (positional [mk_arg "self" None; mk_arg "x" (Some int_name);
                 mk_arg "cls" None; mk_arg "y" None])
    [docstring "Doc."] [] (Some int_name) 4 4.

Definition module_g : AST := ANode (Module [FunctionDef def_g]).

(** [def h(x: int, self) -> int] with a docstring, at 1:0 *)
Definition def_h : funcdef :=
  mk_funcdef "h"
    (positional [mk_arg "x" (Some int_name); mk_arg "self" None])
    [docstring "Doc."] [] (Some int_name) 1 0.

Definition module_h : AST := ANode (Module [FunctionDef def_h]).

(** [def __init__(self, x)] and [def __str__(self)], no docstring, no
    annotation, in [class C] without a docstring at 1:0 *)
Definition def_init : funcdef :=
  mk_funcdef "__init__"
    (positional [mk_arg "self" None; mk_arg "x" None])
    [Other []] [] None 2 4.

Definition def_str : funcdef :=
  mk_funcdef "__str__" (positional [mk_arg "self" None])
    [Other []] [] None 4 4.

Definition class_C : classdef :=
  mk_classdef "C" [] [] [FunctionDef def_init; FunctionDef def_str] [] 1 0.

Definition module_C : AST := ANode (Module [ClassDef class_C]).

(** [async def k(x)], no docstring, no annotation, at 1:0 *)
Definition def_k : funcdef :=
  mk_funcdef "k" (positional [mk_arg "x" None]) [Other []] [] None 1 0.

Definition module_k : AST := ANode (Module [AsyncFunctionDef def_k]).

(** Two lines of flake8 output, the second with a line number that is
    not a number. *)
Definition stdout_bad_second : string :=
  "a.py:1:2: E1 msg" ++ String Py.LF "a.py:x:3: E2 msg".

Definition world_bad_second : World :=
  one_file (Parsed module_h) (Completed stdout_bad_second).

Definition world_syntax_error : World :=
  one_file (RaisesSyntaxError "invalid syntax" (Some 3%Z) None)
    RaisesFileNotFoundError.

Definition world_f_x : World :=
  one_file (Parsed module_f_x) RaisesFileNotFoundError.

(** Three errors of one file, two of them at the same position. *)
Definition three_errors : list NormError :=
  [NormError_ "a.py" 5 0 "TYPE_HINT" "first";
   NormError_ "a.py" 1 0 "TYPE_HINT" "second";
   NormError_ "a.py" 1 0 "DOCSTRING" "third"].

(** [def p(x, /) -> int] with a docstring, at 1:0 *)
Definition def_p : funcdef :=
  mk_funcdef "p" (mk_arguments [mk_arg "x" None] [] None [] [] None [])
    [docstring "Doc."] [] (Some int_name) 1 0.

Definition module_p : AST := ANode (Module [FunctionDef def_p]).

(** [class D] at 1:0 whose only statement is an empty string *)
Definition class_D : classdef :=
  mk_classdef "D" [] [] [docstring EmptyString] [] 1 0.

Definition module_D : AST := ANode (Module [ClassDef class_D]).

(** [a.py] holds [def h]; flake8 runs and prints nothing. *)
Definition world_clean : World :=
  one_file (Parsed module_h) (Completed EmptyString).

(** [a.py] holds [def h]; flake8 prints one line. *)
Definition world_one_line : World :=
  one_file (Parsed module_h) (Completed "a.py:1:2: E1 msg").

End Samples.

(* ===================================================================== *)
(** ** Facts about the string methods *)
(* ===================================================================== *)

Lemma startswith_iff (s p : string) :
  Str.startswith s p = true <-> exists r, s = p ++ r.
Proof.
  unfold Str.startswith. revert s.
  induction p as [|a p IH]; intros s.
  - destruct s; simpl; split; eauto.
  - destruct s as [|b s]; simpl.
    + split; [discriminate | intros [r Hr]; discriminate].
    + destruct (ascii_dec a b) as [->|Hab].
      * rewrite IH. split; intros [r Hr]; exists r; congruence.
      * split; [discriminate | intros [r Hr]; congruence].
Qed.

Lemma substring_all (p : string) : substring 0 (String.length p) p = p.
Proof. induction p; simpl; congruence. Qed.

Lemma substring_skip (r p : string) :
  substring (String.length r) (String.length p) (r ++ p) = p.
Proof. induction r; simpl; auto using substring_all. Qed.

Lemma length_append (a b : string) :
  String.length (a ++ b) = String.length a + String.length b.
Proof. induction a; simpl; congruence. Qed.

Lemma substring_split (s : string) (k : nat) :
  k <= String.length s ->
  s = substring 0 k s ++ substring k (String.length s - k) s.
Proof.
  revert k. induction s as [|c s IH]; intros [|k] Hk; simpl in *;
    try reflexivity; try lia.
  - now rewrite substring_all.
  - f_equal. apply IH. lia.
Qed.

Lemma endswith_iff (s p : string) :
  Str.endswith s p = true <-> exists r, s = r ++ p.
Proof.
  unfold Str.endswith. rewrite andb_true_iff, Nat.leb_le, String.eqb_eq.
  split.
  - intros [Hle Hsub].
    exists (substring 0 (String.length s - String.length p) s).
    remember (String.length p) as m eqn:Hm.
    rewrite <- Hsub.
    pose proof (substring_split s (String.length s - m)) as H.
    replace (String.length s - (String.length s - m)) with m in H by lia.
    apply H. lia.
  - intros [r ->]. rewrite length_append. split; [lia|].
    replace (String.length r + String.length p - String.length p)
      with (String.length r) by lia.
    apply substring_skip.
Qed.

(** A name is dunder-style when it has [__] at both ends. *)
Lemma is_dunder_iff (name : string) :
  is_dunder name = true <->
  (exists r, name = "__" ++ r) /\ (exists r, name = r ++ "__").
Proof.
  unfold is_dunder.
  now rewrite andb_true_iff, startswith_iff, endswith_iff.
Qed.

Lemma is_magic_iff (name : string) :
  is_magic name = true <-> is_dunder name = true /\ name <> "__init__".
Proof.
  unfold is_magic, is_dunder.
  rewrite andb_true_iff, negb_true_iff, String.eqb_neq. tauto.
Qed.

(* ===================================================================== *)
(** ** Loops that only append *)
(* ===================================================================== *)

Section Appending.

Context {A B : Type} (step : list B -> A -> list B).

Lemma fold_appends (H : appends step) (l : list A) (acc : list B) :
  fold_left step l acc = (acc ++ flat_map (step []) l)%list.
Proof.
  revert acc. induction l as [|x l IH]; intros acc; simpl.
  - now rewrite app_nil_r.
  - rewrite IH, (H acc x). now rewrite <- app_assoc.
Qed.

Lemma fold_appends_split (H : appends step) (pre post : list A) (x : A) :
  fold_left step (pre ++ x :: post) [] =
  (fold_left step pre [] ++ step [] x ++ fold_left step post [])%list.
Proof.
  rewrite !(fold_appends H). simpl.
  now rewrite flat_map_app.
Qed.

End Appending.

(* ===================================================================== *)
(** ** [ast.walk] visits every object of the tree once *)
(* ===================================================================== *)

Lemma total_size_app (a b : list AST) :
  total_size (a ++ b) = total_size a + total_size b.
Proof. unfold total_size. now rewrite map_app, list_sum_app. Qed.

Lemma total_size_map_node (l : list node) :
  total_size (map ANode l) = list_sum (map size_node l).
Proof. unfold total_size. now rewrite map_map. Qed.

Lemma total_size_map_arg (l : list arg) :
  total_size (map AArg l) = list_sum (map size_arg l).
Proof. unfold total_size. now rewrite map_map. Qed.

Lemma total_size_opt_node (o : option node) :
  total_size (opt_child ANode o) = opt_size size_node o.
Proof. destruct o; unfold total_size; simpl; lia. Qed.

Lemma total_size_opt_arg (o : option arg) :
  total_size (opt_child AArg o) = opt_size size_arg o.
Proof. destruct o; unfold total_size; simpl; lia. Qed.

Lemma total_size_opt_nodes (l : list (option node)) :
  total_size (flat_map (opt_child ANode) l) =
  list_sum (map (opt_size size_node) l).
Proof.
  induction l as [|o l IH]; simpl; [reflexivity|].
  now rewrite total_size_app, total_size_opt_node, IH.
Qed.

Ltac total_size_norm :=
  repeat rewrite ?total_size_app, ?total_size_map_node, ?total_size_map_arg,
    ?total_size_opt_node, ?total_size_opt_arg, ?total_size_opt_nodes.

(** An object weighs one more than its children. *)
Lemma size_children (t : AST) : size t = S (total_size (iter_child_nodes t)).
Proof.
  destruct t as [n|a|a].
  - destruct n as [body|d|d|d|value|c|a body|children]; simpl;
      try destruct d; simpl;
      change (?x :: ?l) with ([x] ++ l)%list;
      total_size_norm; unfold total_size; simpl; lia.
  - destruct a; simpl. total_size_norm. lia.
  - destruct a; simpl. total_size_norm. reflexivity.
Qed.

Lemma total_size_cons (n : AST) (rest : list AST) :
  total_size (n :: rest) = S (total_size (iter_child_nodes n ++ rest)).
Proof.
  rewrite total_size_app. unfold total_size at 1. simpl.
  rewrite size_children. reflexivity.
Qed.

Lemma walk_queue_cons (n : AST) (rest : list AST) :
  walk_queue (n :: rest) = n :: walk_queue (rest ++ iter_child_nodes n).
Proof.
  unfold walk_queue. rewrite total_size_cons. simpl.
  now rewrite !total_size_app, Nat.add_comm.
Qed.

Lemma preorder_queue_cons (n : AST) (rest : list AST) :
  preorder_queue (n :: rest) =
  n :: preorder_queue (iter_child_nodes n ++ rest).
Proof. unfold preorder_queue. now rewrite total_size_cons. Qed.

Lemma walk_is_walk_queue (tree : AST) : walk tree = walk_queue [tree].
Proof.
  unfold walk, walk_queue, total_size. simpl. now rewrite Nat.add_0_r.
Qed.

Lemma preorder_is_preorder_queue (tree : AST) :
  preorder tree = preorder_queue [tree].
Proof.
  unfold preorder, preorder_queue, total_size. simpl. now rewrite Nat.add_0_r.
Qed.

(** Induction on a queue by the number of objects still to come. *)
Lemma queue_ind (P : list AST -> Prop) :
  P [] ->
  (forall n rest,
      (forall q, total_size q < total_size (n :: rest) -> P q) ->
      P (n :: rest)) ->
  forall q, P q.
Proof.
  intros Hnil Hcons q.
  remember (total_size q) as k eqn:Hk. revert q Hk.
  induction k as [k IH] using lt_wf_ind. intros [|n rest] Hk.
  - exact Hnil.
  - apply Hcons. intros q Hq. apply (IH (total_size q)); [lia | reflexivity].
Qed.

Lemma preorder_queue_app (a b : list AST) :
  preorder_queue (a ++ b) = (preorder_queue a ++ preorder_queue b)%list.
Proof.
  induction a as [|n rest IH] using queue_ind.
  - reflexivity.
  - simpl. rewrite !preorder_queue_cons, app_assoc, IH; [reflexivity|].
    rewrite total_size_cons. lia.
Qed.

(** The queue order and the depth-first order list the same objects, each
    as many times. *)
Lemma walk_queue_preorder (q : list AST) :
  Permutation (walk_queue q) (preorder_queue q).
Proof.
  induction q as [|n rest IH] using queue_ind.
  - constructor.
  - rewrite walk_queue_cons, preorder_queue_cons. constructor.
    rewrite IH.
    + rewrite !preorder_queue_app. apply Permutation_app_comm.
    + rewrite total_size_cons, !total_size_app. lia.
Qed.

Lemma walk_preorder (tree : AST) : Permutation (walk tree) (preorder tree).
Proof.
  rewrite walk_is_walk_queue, preorder_is_preorder_queue.
  apply walk_queue_preorder.
Qed.

Lemma preorder_queue_self (q : list AST) (t : AST) :
  In t q -> In t (preorder_queue q).
Proof.
  intros Hin. apply in_split in Hin. destruct Hin as [a [b ->]].
  rewrite preorder_queue_app, preorder_queue_cons.
  apply in_or_app. right. now left.
Qed.

Lemma preorder_queue_children (q : list AST) (p c : AST) :
  In p (preorder_queue q) -> In c (iter_child_nodes p) ->
  In c (preorder_queue q).
Proof.
  induction q as [|n rest IH] using queue_ind; intros Hp Hc.
  - destruct Hp.
  - rewrite preorder_queue_cons, preorder_queue_app in *.
    destruct Hp as [->|Hp]; [|apply in_app_or in Hp; destruct Hp as [Hp|Hp]].
    + right. apply in_or_app. left. now apply preorder_queue_self.
    + right. apply in_or_app. left. apply IH; auto.
      rewrite total_size_cons, total_size_app. lia.
    + right. apply in_or_app. right. apply IH; auto.
      rewrite total_size_cons, total_size_app. lia.
Qed.

Lemma preorder_queue_subtree (q : list AST) (c : AST) :
  In c (preorder_queue q) -> exists t, In t q /\ subtree t c.
Proof.
  induction q as [|n rest IH] using queue_ind; intros Hc.
  - destruct Hc.
  - rewrite preorder_queue_cons, preorder_queue_app in Hc.
    destruct Hc as [->|Hc]; [|apply in_app_or in Hc; destruct Hc as [Hc|Hc]].
    + exists c. split; [now left | constructor].
    + apply IH in Hc; [|rewrite total_size_cons, total_size_app; lia].
      destruct Hc as [t [Ht Hsub]]. exists n. split; [now left|].
      clear - Ht Hsub. induction Hsub.
      * now apply subtree_child with (p := n); [constructor|].
      * eapply subtree_child; eauto.
    + apply IH in Hc; [|rewrite total_size_cons, total_size_app; lia].
      destruct Hc as [t [Ht Hsub]]. exists t. split; [now right | assumption].
Qed.

(** The objects [ast.walk] yields are those of the tree. *)
Lemma walk_subtree (tree c : AST) : In c (walk tree) <-> subtree tree c.
Proof.
  split.
  - intros Hin. apply (Permutation_in _ (walk_preorder tree)) in Hin.
    rewrite preorder_is_preorder_queue in Hin.
    apply preorder_queue_subtree in Hin. destruct Hin as [t [[<-|[]] Hsub]].
    exact Hsub.
  - intros Hsub.
    apply (Permutation_in _ (Permutation_sym (walk_preorder tree))).
    rewrite preorder_is_preorder_queue.
    induction Hsub.
    + apply preorder_queue_self. now left.
    + eapply preorder_queue_children; eauto.
Qed.

(* ===================================================================== *)
(** ** The rule checks, object by object *)
(* ===================================================================== *)

Lemma type_hints_arg_appends (filepath : string) (d : funcdef) :
  appends (type_hints_arg filepath d).
Proof.
  intros acc a. unfold type_hints_arg.
  destruct (_ || _); [now rewrite app_nil_r|].
  destruct (Arg.annotation a); [now rewrite app_nil_r | reflexivity].
Qed.

Lemma type_hints_node_appends (filepath : string) :
  appends (type_hints_node filepath).
Proof.
  intros acc n. unfold type_hints_node.
  destruct n as [[ | d | | | | | | ] | | ]; try now rewrite app_nil_r.
  destruct (is_dunder _); [now rewrite app_nil_r|].
  rewrite !(fold_appends _ (type_hints_arg_appends filepath d)).
  destruct (Fn.returns d); simpl; [reflexivity | now rewrite <- app_assoc].
Qed.

Lemma docstrings_node_appends (w : World) (filepath : string) :
  appends (docstrings_node w filepath).
Proof.
  intros acc n. unfold docstrings_node.
  destruct n as [[ | d | | d | | | | ] | | ]; try now rewrite app_nil_r.
  - destruct (is_magic _); [now rewrite app_nil_r|].
    destruct (no_docstring _ _); [reflexivity | now rewrite app_nil_r].
  - destruct (no_docstring _ _); [reflexivity | now rewrite app_nil_r].
Qed.

(** The check is the concatenation of what each visited object adds. *)
Lemma check_type_hints_split (tree : AST) (filepath : string)
    (pre post : list AST) (n : AST) :
  walk tree = (pre ++ n :: post)%list ->
  _check_type_hints tree filepath =
  (hints_over filepath pre ++ hints_at filepath n
     ++ hints_over filepath post)%list.
Proof.
  intros Hw. unfold _check_type_hints. rewrite Hw.
  apply fold_appends_split, type_hints_node_appends.
Qed.

Lemma check_docstrings_split (w : World) (tree : AST) (filepath : string)
    (pre post : list AST) (n : AST) :
  walk tree = (pre ++ n :: post)%list ->
  _check_docstrings w tree filepath =
  (docs_over w filepath pre ++ docs_at w filepath n
     ++ docs_over w filepath post)%list.
Proof.
  intros Hw. unfold _check_docstrings. rewrite Hw.
  apply fold_appends_split, docstrings_node_appends.
Qed.

Lemma check_type_hints_flat (tree : AST) (filepath : string) :
  _check_type_hints tree filepath = flat_map (hints_at filepath) (walk tree).
Proof.
  unfold _check_type_hints.
  now rewrite (fold_appends _ (type_hints_node_appends filepath)).
Qed.

Lemma check_docstrings_flat (w : World) (tree : AST) (filepath : string) :
  _check_docstrings w tree filepath =
  flat_map (docs_at w filepath) (walk tree).
Proof.
  unfold _check_docstrings.
  now rewrite (fold_appends _ (docstrings_node_appends w filepath)).
Qed.

(** The loop over [node.args.args]: one error for each reported
    parameter, in order. *)
Lemma hints_of_args (filepath : string) (d : funcdef) (l : list arg) :
  fold_left (type_hints_arg filepath d) l [] =
  map (missing_arg_hint filepath d) (filter reported l).
Proof.
  rewrite (fold_appends _ (type_hints_arg_appends filepath d)). simpl.
  induction l as [|a l IH]; simpl; [reflexivity|].
  rewrite IH. unfold type_hints_arg, reported.
  destruct (_ || _); simpl; [reflexivity|].
  destruct (Arg.annotation a); reflexivity.
Qed.

Lemma hints_at_function (filepath : string) (d : funcdef) :
  is_dunder (Fn.name d) = false ->
  hints_at filepath (ANode (FunctionDef d)) =
  ((match Fn.returns d with
    | None => [missing_return filepath d]
    | Some _ => []
    end)
   ++ map (missing_arg_hint filepath d)
        (filter reported (Args.args (Fn.args d))))%list.
Proof.
  intros Hd. unfold hints_at, type_hints_node. rewrite Hd.
  rewrite (fold_appends _ (type_hints_arg_appends filepath d)).
  rewrite <- hints_of_args.
  now rewrite (fold_appends _ (type_hints_arg_appends filepath d) _ []).
Qed.

Lemma reported_iff (a : arg) :
  reported a = true <->
  Arg.annotation a = None /\ Arg.arg a <> "self" /\ Arg.arg a <> "cls".
Proof.
  unfold reported.
  rewrite andb_true_iff, negb_true_iff, orb_false_iff, !String.eqb_neq.
  destruct (Arg.annotation a); intuition congruence.
Qed.

Lemma missing_arg_hint_not_return (filepath : string) (d : funcdef) (a : arg) :
  missing_arg_hint filepath d a <> missing_return filepath d.
Proof. unfold missing_arg_hint, missing_return, NormError_. intros H. discriminate H. Qed.

Lemma visited_in_walk (tree n : AST) :
  subtree tree n -> exists pre post, walk tree = (pre ++ n :: post)%list.
Proof. intros H. apply in_split. now apply walk_subtree. Qed.

Lemma no_docstring_without_statement (w : World) (body : list node) :
  ~ starts_with_docstring body -> no_docstring w body = true.
Proof.
  intros H. unfold no_docstring, get_docstring.
  destruct body as [|[ | | | | [ | | | | |[s|] | | ] | | | ] rest];
    try reflexivity.
  exfalso. apply H. now exists s, rest.
Qed.

(* ===================================================================== *)
(** ** The type-hint check *)
(* ===================================================================== *)

Lemma not_dunder (name : string) :
  ~ ((exists r, name = "__" ++ r) /\ (exists r, name = r ++ "__")) ->
  is_dunder name = false.
Proof.
  intros H. destruct (is_dunder name) eqn:Hd; [|reflexivity].
  now apply is_dunder_iff in Hd.
Qed.

(** What a check adds at a visited object is part of what it returns. *)
Lemma hints_at_in (tree n : AST) (filepath : string) (e : NormError) :
  subtree tree n -> In e (hints_at filepath n) ->
  In e (_check_type_hints tree filepath).
Proof.
  intros Hsub He. rewrite check_type_hints_flat. apply in_flat_map.
  exists n. split; [now apply walk_subtree | exact He].
Qed.

Lemma docs_at_in (w : World) (tree n : AST) (filepath : string)
    (e : NormError) :
  subtree tree n -> In e (docs_at w filepath n) ->
  In e (_check_docstrings w tree filepath).
Proof.
  intros Hsub He. rewrite check_docstrings_flat. apply in_flat_map.
  exists n. split; [now apply walk_subtree | exact He].
Qed.

(** C3.  A function definition of the tree whose name is not
    dunder-style and that has no return annotation is visited, and the
    check returns for it the error with code [TYPE_HINT], message
    "Function '<name>' missing return type hint", at the function's line
    and column.  At each visit that error is added exactly once;
    whatever else is added there is the error of one of the function's
    parameters, however many there are. *)
Theorem missing_return_reported_once (tree : AST) (filepath : string)
    (d : funcdef) :
  subtree tree (ANode (FunctionDef d)) ->
  ~ ((exists r, Fn.name d = "__" ++ r) /\ (exists r, Fn.name d = r ++ "__")) ->
  Fn.returns d = None ->
  In (mkNormError filepath (Fn.lineno d) (Fn.col_offset d) "TYPE_HINT"
        ("Function '" ++ Fn.name d ++ "' missing return type hint") "Error")
     (_check_type_hints tree filepath)
  /\
  (exists pre post, walk tree = (pre ++ ANode (FunctionDef d) :: post)%list)
  /\
  (forall pre post,
      walk tree = (pre ++ ANode (FunctionDef d) :: post)%list ->
      exists params,
        _check_type_hints tree filepath =
        (hints_over filepath pre
           ++ (mkNormError filepath (Fn.lineno d) (Fn.col_offset d)
                 "TYPE_HINT"
                 ("Function '" ++ Fn.name d ++ "' missing return type hint")
                 "Error"
               :: params)
           ++ hints_over filepath post)%list
        /\ Forall
             (fun e =>
                exists a,
                  In a (Args.args (Fn.args d))
                  /\ e = mkNormError filepath (Fn.lineno d) (Fn.col_offset d)
                           "TYPE_HINT"
                           ("Argument '" ++ Arg.arg a ++ "' in function '"
                              ++ Fn.name d ++ "' missing type hint")
                           "Error")
             params
        /\ count_occ NormError_eq_dec
             (mkNormError filepath (Fn.lineno d) (Fn.col_offset d)
                "TYPE_HINT"
                ("Function '" ++ Fn.name d ++ "' missing return type hint")
                "Error"
              :: params)
             (mkNormError filepath (Fn.lineno d) (Fn.col_offset d)
                "TYPE_HINT"
                ("Function '" ++ Fn.name d ++ "' missing return type hint")
                "Error") = 1).
Proof.
  intros Hsub Hname Hret. apply not_dunder in Hname.
  pose proof (hints_at_function filepath d Hname) as Hat.
  rewrite Hret in Hat.
  split; [|split].
  - apply (hints_at_in _ _ _ _ Hsub). rewrite Hat. now left.
  - now apply visited_in_walk.
  - intros pre post Hw.
    exists (map (missing_arg_hint filepath d)
              (filter reported (Args.args (Fn.args d)))).
    split; [|split].
    + now rewrite (check_type_hints_split _ _ _ _ _ Hw), Hat.
    + apply Forall_forall. intros e He. apply in_map_iff in He.
      destruct He as [a [<- Ha]]. apply filter_In in Ha. exists a.
      split; [tauto | reflexivity].
    + rewrite count_occ_cons_eq by reflexivity. f_equal.
      apply count_occ_not_In. intros Hin. apply in_map_iff in Hin.
      destruct Hin as [a [Ha _]]. discriminate Ha.
Qed.

(** C4, as amended.  A function definition of the tree whose name is not
    dunder-style is visited, and the check returns, for every parameter
    of its [node.args.args] that has no annotation and is named neither
    [self] nor [cls], the error with code [TYPE_HINT], message
    "Argument '<arg>' in function '<name>' missing type hint", at the
    function's line and column.  At each visit these errors, in the
    order of the parameters, follow the return error if there is one,
    and nothing else is added: a parameter named [self] or [cls] is
    exempt at every position, and the positional-only parameters play
    no part. *)
Theorem unannotated_args_reported (tree : AST) (filepath : string)
    (d : funcdef) :
  subtree tree (ANode (FunctionDef d)) ->
  ~ ((exists r, Fn.name d = "__" ++ r) /\ (exists r, Fn.name d = r ++ "__")) ->
  (forall a,
      In a (Args.args (Fn.args d)) ->
      Arg.annotation a = None ->
      Arg.arg a <> "self" ->
      Arg.arg a <> "cls" ->
      In (mkNormError filepath (Fn.lineno d) (Fn.col_offset d) "TYPE_HINT"
            ("Argument '" ++ Arg.arg a ++ "' in function '" ++ Fn.name d
               ++ "' missing type hint")
            "Error")
         (_check_type_hints tree filepath))
  /\
  (exists pre post, walk tree = (pre ++ ANode (FunctionDef d) :: post)%list)
  /\
  (forall pre post,
      walk tree = (pre ++ ANode (FunctionDef d) :: post)%list ->
      exists ret,
        _check_type_hints tree filepath =
        (hints_over filepath pre
           ++ (ret
                 ++ map
                      (fun a =>
                         mkNormError filepath (Fn.lineno d) (Fn.col_offset d)
                           "TYPE_HINT"
                           ("Argument '" ++ Arg.arg a ++ "' in function '"
                              ++ Fn.name d ++ "' missing type hint")
                           "Error")
                      (filter reported (Args.args (Fn.args d))))
           ++ hints_over filepath post)%list
        /\ (ret = []
            \/ ret = [mkNormError filepath (Fn.lineno d) (Fn.col_offset d)
                        "TYPE_HINT"
                        ("Function '" ++ Fn.name d
                           ++ "' missing return type hint")
                        "Error"]))
  /\
  (forall a,
      reported a = true <->
      Arg.annotation a = None /\ Arg.arg a <> "self" /\ Arg.arg a <> "cls")
  /\
  (forall name args vararg kwonly kw_defaults kwarg defaults body decos ret
          lineno col_offset posonly posonly',
      hints_at filepath
        (ANode (FunctionDef
           (mk_funcdef name
              (mk_arguments posonly args vararg kwonly kw_defaults kwarg
                 defaults)
              body decos ret lineno col_offset)))
      = hints_at filepath
          (ANode (FunctionDef
             (mk_funcdef name
                (mk_arguments posonly' args vararg kwonly kw_defaults kwarg
                   defaults)
                body decos ret lineno col_offset)))).
Proof.
  intros Hsub Hname. apply not_dunder in Hname.
  pose proof (hints_at_function filepath d Hname) as Hat.
  split; [|split; [|split; [|split]]].
  - intros a Ha Hann Hself Hcls. apply (hints_at_in _ _ _ _ Hsub).
    rewrite Hat. apply in_or_app. right.
    apply (in_map (missing_arg_hint filepath d)).
    apply filter_In. split; [exact Ha|]. apply reported_iff. tauto.
  - now apply visited_in_walk.
  - intros pre post Hw.
    exists (match Fn.returns d with
            | None => [missing_return filepath d]
            | Some _ => []
            end).
    split.
    + now rewrite (check_type_hints_split _ _ _ _ _ Hw), Hat.
    + destruct (Fn.returns d); [now left | now right].
  - apply reported_iff.
  - reflexivity.
Qed.

(** C5.  At the visit of a function definition whose name has [__] at
    both ends, [__init__] among them, the check adds nothing: no error
    for the return annotation and none for a parameter. *)
Theorem dunder_functions_exempt_from_type_hints (tree : AST)
    (filepath : string) (d : funcdef) (pre post : list AST) :
  walk tree = (pre ++ ANode (FunctionDef d) :: post)%list ->
  (exists r, Fn.name d = "__" ++ r) ->
  (exists r, Fn.name d = r ++ "__") ->
  hints_at filepath (ANode (FunctionDef d)) = []
  /\ _check_type_hints tree filepath =
     (hints_over filepath pre ++ hints_over filepath post)%list
  /\ hints_at filepath (AArguments (Fn.args d)) = []
  /\ (forall a, hints_at filepath (AArg a) = [])
  /\ is_dunder "__init__" = true.
Proof.
  intros Hw Hpre Hsuf.
  assert (Hd : is_dunder (Fn.name d) = true) by now apply is_dunder_iff.
  assert (Hat : hints_at filepath (ANode (FunctionDef d)) = []).
  { unfold hints_at, type_hints_node. now rewrite Hd. }
  repeat split; try assumption.
  now rewrite (check_type_hints_split _ _ _ _ _ Hw), Hat.
Qed.

(** C9.  Every error of the type-hint check is the return error of a
    function definition of the tree or the error of a parameter in that
    function's [node.args.args]; and what the check adds at a function
    does not depend on its [*args], keyword-only parameters, their
    defaults or its [**kwargs]. *)
Theorem only_positional_list_inspected :
  (forall tree filepath e,
      In e (_check_type_hints tree filepath) ->
      exists d,
        subtree tree (ANode (FunctionDef d))
        /\ is_dunder (Fn.name d) = false
        /\ ((Fn.returns d = None /\ e = missing_return filepath d)
            \/ exists a, In a (Args.args (Fn.args d))
                         /\ reported a = true
                         /\ e = missing_arg_hint filepath d a))
  /\
  (forall filepath name posonly args defaults body decos ret lineno col_offset
          vararg kwonly kw_defaults kwarg vararg' kwonly' kw_defaults' kwarg',
      hints_at filepath
        (ANode (FunctionDef
           (mk_funcdef name
              (mk_arguments posonly args vararg kwonly kw_defaults kwarg defaults)
              body decos ret lineno col_offset)))
      = hints_at filepath
          (ANode (FunctionDef
             (mk_funcdef name
                (mk_arguments posonly args vararg' kwonly' kw_defaults' kwarg'
                   defaults)
                body decos ret lineno col_offset)))).
Proof.
  split; [|reflexivity].
  intros tree filepath e He. rewrite check_type_hints_flat in He.
  apply in_flat_map in He. destruct He as [n [Hn He]].
  apply walk_subtree in Hn.
  destruct n as [[ | d | | | | | | ] | | ]; try destruct He.
  destruct (is_dunder (Fn.name d)) eqn:Hd.
  { unfold hints_at, type_hints_node in He. rewrite Hd in He. destruct He. }
  rewrite hints_at_function in He by assumption.
  exists d. split; [assumption | split; [assumption|]].
  apply in_app_or in He. destruct He as [He|He].
  - left. destruct (Fn.returns d); [destruct He|].
    destruct He as [<-|[]]. now split.
  - right. apply in_map_iff in He. destruct He as [a [<- Ha]].
    apply filter_In in Ha. exists a. tauto.
Qed.

(* ===================================================================== *)
(** ** The docstring check *)
(* ===================================================================== *)

(** C6.  A class of the tree whose body does not start with a string
    constant is visited, and the check returns for it the error with
    code [DOCSTRING], message "Class '<name>' missing docstring", at the
    class's line and column.  A function of the tree whose body does not
    start with one, and whose name is not dunder-style or is [__init__],
    is visited, and the check returns for it the error "Function
    '<name>' missing docstring" at the function's line and column.  At
    each such visit that error alone is added.  At the visit of any
    other dunder-style function nothing is added. *)
Theorem docstring_errors (w : World) (tree : AST) (filepath : string) :
  (forall c,
      subtree tree (ANode (ClassDef c)) ->
      ~ starts_with_docstring (Cls.body c) ->
      In (mkNormError filepath (Cls.lineno c) (Cls.col_offset c) "DOCSTRING"
            ("Class '" ++ Cls.name c ++ "' missing docstring") "Error")
         (_check_docstrings w tree filepath)
      /\ (exists pre post,
             walk tree = (pre ++ ANode (ClassDef c) :: post)%list)
      /\ (forall pre post,
             walk tree = (pre ++ ANode (ClassDef c) :: post)%list ->
             _check_docstrings w tree filepath =
             (docs_over w filepath pre
                ++ [mkNormError filepath (Cls.lineno c) (Cls.col_offset c)
                      "DOCSTRING"
                      ("Class '" ++ Cls.name c ++ "' missing docstring")
                      "Error"]
                ++ docs_over w filepath post)%list))
  /\
  (forall d,
      subtree tree (ANode (FunctionDef d)) ->
      ~ starts_with_docstring (Fn.body d) ->
      ~ ((exists r, Fn.name d = "__" ++ r) /\ (exists r, Fn.name d = r ++ "__"))
      \/ Fn.name d = "__init__" ->
      In (mkNormError filepath (Fn.lineno d) (Fn.col_offset d) "DOCSTRING"
            ("Function '" ++ Fn.name d ++ "' missing docstring") "Error")
         (_check_docstrings w tree filepath)
      /\ (exists pre post,
             walk tree = (pre ++ ANode (FunctionDef d) :: post)%list)
      /\ (forall pre post,
             walk tree = (pre ++ ANode (FunctionDef d) :: post)%list ->
             _check_docstrings w tree filepath =
             (docs_over w filepath pre
                ++ [mkNormError filepath (Fn.lineno d) (Fn.col_offset d)
                      "DOCSTRING"
                      ("Function '" ++ Fn.name d ++ "' missing docstring")
                      "Error"]
                ++ docs_over w filepath post)%list))
  /\
  (forall d,
      subtree tree (ANode (FunctionDef d)) ->
      (exists r, Fn.name d = "__" ++ r) ->
      (exists r, Fn.name d = r ++ "__") ->
      Fn.name d <> "__init__" ->
      docs_at w filepath (ANode (FunctionDef d)) = []
      /\ (exists pre post,
             walk tree = (pre ++ ANode (FunctionDef d) :: post)%list)
      /\ (forall pre post,
             walk tree = (pre ++ ANode (FunctionDef d) :: post)%list ->
             _check_docstrings w tree filepath =
             (docs_over w filepath pre ++ docs_over w filepath post)%list)).
Proof.
  split; [|split].
  - intros c Hsub Hdoc.
    assert (Hat : docs_at w filepath (ANode (ClassDef c)) =
                  [class_missing_docstring filepath c]).
    { unfold docs_at, docstrings_node.
      now rewrite (no_docstring_without_statement w _ Hdoc). }
    split; [|split].
    + apply (docs_at_in _ _ _ _ _ Hsub). rewrite Hat. now left.
    + now apply visited_in_walk.
    + intros pre post Hw.
      now rewrite (check_docstrings_split _ _ _ _ _ _ Hw), Hat.
  - intros d Hsub Hdoc Hname.
    assert (Hm : is_magic (Fn.name d) = false).
    { destruct (is_magic (Fn.name d)) eqn:Hm; [|reflexivity].
      apply is_magic_iff in Hm. destruct Hm as [Hd Hinit].
      apply is_dunder_iff in Hd. destruct Hname; tauto. }
    assert (Hat : docs_at w filepath (ANode (FunctionDef d)) =
                  [function_missing_docstring filepath d]).
    { unfold docs_at, docstrings_node.
      now rewrite Hm, (no_docstring_without_statement w _ Hdoc). }
    split; [|split].
    + apply (docs_at_in _ _ _ _ _ Hsub). rewrite Hat. now left.
    + now apply visited_in_walk.
    + intros pre post Hw.
      now rewrite (check_docstrings_split _ _ _ _ _ _ Hw), Hat.
  - intros d Hsub Hpre Hsuf Hname.
    assert (Hm : is_magic (Fn.name d) = true).
    { apply is_magic_iff. split; [now apply is_dunder_iff | exact Hname]. }
    assert (Hat : docs_at w filepath (ANode (FunctionDef d)) = []).
    { unfold docs_at, docstrings_node. now rewrite Hm. }
    split; [exact Hat | split].
    + now apply visited_in_walk.
    + intros pre post Hw.
      now rewrite (check_docstrings_split _ _ _ _ _ _ Hw), Hat.
Qed.

(* ===================================================================== *)
(** ** Async functions *)
(* ===================================================================== *)

(** C10.  At the visit of an async function definition neither check
    adds anything, whatever its annotations and its body; nor at the
    visit of an [arguments] or [arg] object; and every error of the two
    checks is added at a [FunctionDef] or at a [ClassDef]. *)
Theorem async_functions_invisible (w : World) (tree : AST)
    (filepath : string) (d : funcdef) (pre post : list AST) :
  walk tree = (pre ++ ANode (AsyncFunctionDef d) :: post)%list ->
  _check_type_hints tree filepath =
    (hints_over filepath pre ++ hints_over filepath post)%list
  /\ _check_docstrings w tree filepath =
    (docs_over w filepath pre ++ docs_over w filepath post)%list
  /\ (forall a, hints_at filepath (AArguments a) = []
                /\ docs_at w filepath (AArguments a) = [])
  /\ (forall a, hints_at filepath (AArg a) = []
                /\ docs_at w filepath (AArg a) = [])
  /\ (forall e,
         In e (_check_type_hints tree filepath
                 ++ _check_docstrings w tree filepath)%list ->
         exists n,
           In n (walk tree)
           /\ (In e (hints_at filepath n) \/ In e (docs_at w filepath n))
           /\ ((exists f, n = ANode (FunctionDef f))
               \/ (exists c, n = ANode (ClassDef c)))).
Proof.
  intros Hw. repeat split.
  - now rewrite (check_type_hints_split _ _ _ _ _ Hw).
  - now rewrite (check_docstrings_split _ _ _ _ _ _ Hw).
  - intros e He. rewrite check_type_hints_flat, check_docstrings_flat in He.
    apply in_app_or in He.
    destruct He as [He|He]; apply in_flat_map in He;
      destruct He as [n [Hn He]]; exists n;
      (split; [assumption|]);
      destruct n as [[ | f | | c | | | | ] | | ]; try destruct He; eauto.
Qed.

(* ===================================================================== *)
(** ** The checker of one file *)
(* ===================================================================== *)

(** C2.  When reading and parsing the file raises [SyntaxError], the
    checker returns one error and nothing else: code [SYNTAX], message
    "Syntax error: " followed by the parser's message, at the parser's
    line and offset, each 0 when the parser gives none; no other check
    runs and nothing is printed. *)
Theorem syntax_error_single_finding (w : World) (filepath msg : string)
    (lineno offset : option Z) :
  read_and_parse w filepath = RaisesSyntaxError msg lineno offset ->
  check_file w filepath =
  ([mkNormError filepath
      (match lineno with Some n => n | None => 0%Z end)
      (match offset with Some n => n | None => 0%Z end)
      "SYNTAX" ("Syntax error: " ++ msg) "Error"],
   []).
Proof.
  intros H. unfold check_file. rewrite H.
  unfold syntax_error, NormError_, Py.or0.
  destruct lineno as [l|], offset as [o|];
    try destruct (Z.eqb_spec l 0); try destruct (Z.eqb_spec o 0);
    subst; reflexivity.
Qed.

Lemma check_file_parsed (w : World) (filepath : string) (tree : AST) :
  read_and_parse w filepath = Parsed tree ->
  fst (check_file w filepath) =
  (_check_type_hints tree filepath
     ++ _check_docstrings w tree filepath
     ++ fst (_check_flake8 w filepath))%list.
Proof.
  intros H. unfold check_file. rewrite H.
  destruct (_check_flake8 w filepath). simpl. now rewrite app_assoc.
Qed.

(* ===================================================================== *)
(** ** The runner *)
(* ===================================================================== *)

Lemma run_files (w : World) (files : list string) (checked : Z)
    (all_errors : list NormError) (printed : list string) :
  fold_left (run_file w) files (checked, all_errors, printed) =
  ((checked + Z.of_nat (List.length files))%Z,
   (all_errors ++ flat_map (fun f => fst (check_file w f)) files)%list,
   (printed ++ flat_map (fun f => snd (check_file w f)) files)%list).
Proof.
  revert checked all_errors printed.
  induction files as [|f files IH]; intros checked all_errors printed.
  - simpl. now rewrite Z.add_0_r, !app_nil_r.
  - cbn [fold_left flat_map List.length]. unfold run_file at 2.
    destruct (check_file w f) as [errors out]. rewrite IH. simpl fst. simpl snd.
    rewrite <- !app_assoc. f_equal. f_equal. lia.
Qed.

Lemma run_paths (w : World) (paths : list string) (checked : Z)
    (all_errors : list NormError) (printed : list string) :
  fold_left (run_path w) paths (checked, all_errors, printed) =
  ((checked + Z.of_nat (List.length (checked_files w paths)))%Z,
   (all_errors
      ++ flat_map (fun f => fst (check_file w f)) (checked_files w paths))%list,
   (printed
      ++ flat_map (fun f => snd (check_file w f)) (checked_files w paths))%list).
Proof.
  revert checked all_errors printed.
  induction paths as [|p paths IH]; intros checked all_errors printed.
  - simpl. now rewrite Z.add_0_r, !app_nil_r.
  - cbn [fold_left]. unfold checked_files. cbn [flat_map].
    fold (checked_files w paths).
    rewrite !flat_map_app, length_app.
    assert (Hp : run_path w (checked, all_errors, printed) p =
                 fold_left (run_file w)
                   (if is_file w p
                    then if String.eqb (suffix w p) ".py"
                         then [path_str w p] else []
                    else if is_dir w p then rglob_py w p else [])
                   (checked, all_errors, printed)).
    { unfold run_path. destruct (is_file w p); [|destruct (is_dir w p)];
        try destruct (String.eqb _ _); reflexivity. }
    rewrite Hp, run_files, IH. rewrite <- !app_assoc. f_equal. f_equal. lia.
Qed.

Lemma length_flat_map_sum {A B : Type} (f : A -> list B) (l : list A) :
  List.length (flat_map f l) = list_sum (map (fun x => List.length (f x)) l).
Proof.
  induction l as [|x l IH]; simpl; [reflexivity|].
  now rewrite length_app, IH.
Qed.

(** C1.  [run] returns 0 when the files it checked have no error in
    all, and 1 when they have one or more; [total_errors] is that
    number. *)
Theorem exit_code_zero_iff_no_errors (w : World) (self : PythonNorminette)
    (paths : list string) :
  (fst (fst (run w self paths)) = 0%Z <-> aggregate_count w paths = 0)
  /\ (aggregate_count w paths <> 0 -> fst (fst (run w self paths)) = 1%Z)
  /\ total_errors (snd (fst (run w self paths))) =
     Z.of_nat (aggregate_count w paths).
Proof.
  unfold run. rewrite run_paths. cbn [app].
  unfold aggregate_count. rewrite <- length_flat_map_sum.
  set (all_errors := flat_map (fun f => fst (check_file w f)) _).
  cbn [total_errors files_checked].
  destruct (Z.eqb_spec (Z.of_nat (List.length all_errors)) 0) as [H0|H0];
    cbn [fst snd total_errors];
    repeat split; intros; try lia; try discriminate.
Qed.

(* ===================================================================== *)
(** ** The flake8 adapter *)
(* ===================================================================== *)

Lemma flake8_line_appends (errors : list NormError) (l : string) :
  flake8_line errors l =
  match flake8_line [] l with
  | Ok added => Ok (errors ++ added)%list
  | Raise e => Raise e
  end.
Proof.
  unfold flake8_line.
  destruct (String.eqb l EmptyString); [now rewrite app_nil_r|].
  destruct (4 <=? _)%nat; [|now rewrite app_nil_r].
  destruct (Py.int (nth 1 _ _)); [|reflexivity].
  destruct (Py.int (nth 2 _ _)); reflexivity.
Qed.

(** Lines that are read add what each adds; the first line that raises
    ends the loop and keeps what was added before it. *)
Lemma flake8_lines_until_raise (errors : list NormError)
    (good rest : list string) (bad e : string) :
  Forall flake8_reads good ->
  flake8_line [] bad = Raise e ->
  flake8_lines errors (good ++ bad :: rest) =
  ((errors ++ flat_map flake8_at good)%list, Some e).
Proof.
  intros Hgood Hbad. revert errors.
  induction Hgood as [|l good [added Hl] _ IH]; intros errors; simpl.
  - rewrite flake8_line_appends, Hbad. now rewrite app_nil_r.
  - rewrite flake8_line_appends, Hl, IH. unfold flake8_at. rewrite Hl.
    now rewrite app_assoc.
Qed.

(** C8, as amended.  When running flake8 raises anything but
    [FileNotFoundError], the adapter prints a warning and returns no
    error.  When reading a line of its output raises, the adapter prints
    a warning and returns the errors of the lines before that line. *)
Theorem flake8_failures_contained (w : World) (filepath : string) :
  (forall e,
      run_flake8 w filepath = RaisesOther e ->
      _check_flake8 w filepath = ([], [flake8_failed e]))
  /\
  (forall stdout good bad rest e,
      run_flake8 w filepath = Completed stdout ->
      Str.split Py.LF (Str.strip stdout) = (good ++ bad :: rest)%list ->
      Forall flake8_reads good ->
      flake8_line [] bad = Raise e ->
      _check_flake8 w filepath = (flat_map flake8_at good, [flake8_failed e])).
Proof.
  split.
  - intros e H. unfold _check_flake8. now rewrite H.
  - intros stdout good bad rest e Hrun Hsplit Hgood Hbad.
    unfold _check_flake8. rewrite Hrun.
    destruct (String.eqb_spec stdout EmptyString) as [->|_].
    + simpl in Hsplit. destruct good as [|g [|? ?]]; try discriminate.
      injection Hsplit as <- _. discriminate Hbad.
    + rewrite Hsplit.
      now rewrite (flake8_lines_until_raise [] good rest bad e Hgood Hbad).
Qed.

(* ===================================================================== *)
(** ** The reporter *)
(* ===================================================================== *)

Lemma key_le_iff (a b : NormError) :
  key_le (key a) (key b) = true <-> position_le a b.
Proof.
  unfold key_le, key, position_le. simpl.
  rewrite orb_true_iff, andb_true_iff, Z.ltb_lt, Z.eqb_eq, Z.leb_le.
  reflexivity.
Qed.

Lemma position_le_total (a b : NormError) :
  position_le a b \/ position_le b a.
Proof. unfold position_le. lia. Qed.

Lemma position_le_trans (a b c : NormError) :
  position_le a b -> position_le b c -> position_le a c.
Proof. unfold position_le. lia. Qed.

Lemma insert_perm (x : NormError) (l : list NormError) :
  Permutation (insert x l) (x :: l).
Proof.
  induction l as [|y r IH]; simpl; [reflexivity|].
  destruct (key_le (key x) (key y)); [reflexivity|].
  rewrite IH. apply perm_swap.
Qed.

Lemma sorted_perm (l : list NormError) : Permutation (sorted l) l.
Proof.
  induction l as [|x r IH]; simpl; [constructor|].
  rewrite insert_perm. now constructor.
Qed.

Lemma insert_sorted (x : NormError) (l : list NormError) :
  StronglySorted position_le l -> StronglySorted position_le (insert x l).
Proof.
  induction 1 as [|y r Hr IH Hy]; simpl.
  - repeat constructor.
  - destruct (key_le (key x) (key y)) eqn:Hxy.
    + apply key_le_iff in Hxy. constructor; [now constructor|].
      constructor; [assumption|].
      eapply Forall_impl; [|exact Hy]. intros z. now apply position_le_trans.
    + assert (Hyx : position_le y x).
      { destruct (position_le_total x y) as [H|H]; [|assumption].
        apply key_le_iff in H. congruence. }
      constructor; [assumption|].
      apply (Permutation_Forall (Permutation_sym (insert_perm x r))).
      now constructor.
Qed.

Lemma sorted_sorted (l : list NormError) :
  StronglySorted position_le (sorted l).
Proof.
  induction l as [|x r IH]; simpl; [constructor | now apply insert_sorted].
Qed.

(** Insertion does not reorder the errors of one position. *)
Lemma insert_at_key (k : Z * Z) (x : NormError) (l : list NormError) :
  at_key k (insert x l) = at_key k (x :: l).
Proof.
  induction l as [|y r IH]; [reflexivity|].
  simpl insert. destruct (key_le (key x) (key y)) eqn:Hxy; [reflexivity|].
  unfold at_key in *. simpl in *. rewrite IH.
  destruct ((line x =? fst k)%Z && (col x =? snd k)%Z) eqn:Hx;
    destruct ((line y =? fst k)%Z && (col y =? snd k)%Z) eqn:Hy;
    try reflexivity.
  exfalso. apply andb_true_iff in Hx, Hy.
  rewrite !Z.eqb_eq in Hx, Hy.
  assert (H : position_le x y) by (unfold position_le; lia).
  apply key_le_iff in H. congruence.
Qed.

Lemma sorted_at_key (k : Z * Z) (l : list NormError) :
  at_key k (sorted l) = at_key k l.
Proof.
  induction l as [|x r IH]; [reflexivity|].
  simpl sorted. rewrite insert_at_key. unfold at_key in *. simpl.
  now rewrite IH.
Qed.

Lemma dict_in_get (k : string) (files : dict) :
  dict_in k files =
  match dict_get k files with
  | Some _ => true
  | None => false
  end.
Proof.
  induction files as [|[k' l] r IH]; simpl; [reflexivity|].
  destruct (String.eqb k' k); simpl; auto.
Qed.

Lemma dict_get_append (k k0 : string) (e : NormError) (files : dict) :
  dict_get k (dict_append k0 e files) =
  if String.eqb k0 k
  then option_map (fun l => (l ++ [e])%list) (dict_get k files)
  else dict_get k files.
Proof.
  induction files as [|[k' l] r IH]; simpl.
  - now destruct (String.eqb k0 k).
  - destruct (String.eqb_spec k' k0) as [->|Hk0]; simpl.
    + destruct (String.eqb k0 k); reflexivity.
    + rewrite IH. destruct (String.eqb_spec k' k) as [->|Hk];
        [|reflexivity].
      destruct (String.eqb_spec k0 k); [congruence | reflexivity].
Qed.

Lemma dict_get_snoc (k k0 : string) (l0 : list NormError) (files : dict) :
  dict_get k (files ++ [(k0, l0)])%list =
  match dict_get k files with
  | Some l => Some l
  | None => if String.eqb k0 k then Some l0 else None
  end.
Proof.
  induction files as [|[k' l] r IH]; simpl; [reflexivity|].
  destruct (String.eqb k' k); auto.
Qed.

Lemma dict_append_keys (k : string) (e : NormError) (files : dict) :
  map fst (dict_append k e files) = map fst files.
Proof.
  induction files as [|[k' l] r IH]; simpl; [reflexivity|].
  destruct (String.eqb k' k); simpl; congruence.
Qed.

Lemma dict_get_absent (k : string) (files : dict) :
  dict_get k files = None -> ~ In k (map fst files).
Proof.
  induction files as [|[k' l] r IH]; simpl; [tauto|].
  destruct (String.eqb_spec k' k); [discriminate|].
  intros H [Hk|Hk]; [congruence | now apply IH].
Qed.

Lemma dict_get_in (k : string) (l : list NormError) (files : dict) :
  NoDup (map fst files) -> In (k, l) files -> dict_get k files = Some l.
Proof.
  induction files as [|[k' l'] r IH]; simpl; [tauto|].
  intros Hnd Hin. inversion Hnd as [|? ? Hk' Hr]; subst.
  destruct Hin as [Heq|Hin].
  - injection Heq as -> ->. now rewrite String.eqb_refl.
  - destruct (String.eqb_spec k' k) as [->|_]; [|now apply IH].
    exfalso. apply Hk'. apply in_map_iff. now exists (k, l).
Qed.

Lemma errors_of_snoc (k : string) (done : list NormError) (e : NormError) :
  errors_of k (done ++ [e])%list =
  (errors_of k done ++ (if String.eqb (file e) k then [e] else []))%list.
Proof. unfold errors_of. rewrite filter_app. reflexivity. Qed.

Lemma grouped_step (files : dict) (done : list NormError) (e : NormError) :
  grouped files done -> grouped (group_error files e) (done ++ [e])%list.
Proof.
  intros [Hnd Hget]. unfold group_error. rewrite dict_in_get.
  pose proof (Hget (file e)) as He.
  split.
  - rewrite dict_append_keys.
    destruct (dict_get (file e) files) eqn:Hfe; [assumption|].
    rewrite map_app. simpl.
    apply NoDup_app_remove_l with (l := []). simpl.
    apply (Permutation_NoDup (Permutation_cons_append _ _)).
    constructor; [now apply dict_get_absent | assumption].
  - intros k. rewrite dict_get_append, errors_of_snoc.
    destruct (dict_get (file e) files) eqn:Hfe.
    + destruct (String.eqb_spec (file e) k) as [<-|_].
      * rewrite Hfe, He. simpl.
        destruct (errors_of (file e) done); [discriminate|].
        injection He as ->. reflexivity.
      * rewrite Hget, app_nil_r. reflexivity.
    + rewrite dict_get_snoc.
      destruct (String.eqb_spec (file e) k) as [<-|_].
      * rewrite Hfe. simpl.
        destruct (errors_of (file e) done); [reflexivity | discriminate].
      * rewrite Hget, app_nil_r.
        destruct (errors_of k done); reflexivity.
Qed.

Lemma grouped_fold (l : list NormError) (files : dict)
    (done : list NormError) :
  grouped files done ->
  grouped (fold_left group_error l files) (done ++ l)%list.
Proof.
  revert files done. induction l as [|e l IH]; intros files done H; simpl.
  - now rewrite app_nil_r.
  - replace (done ++ e :: l)%list with ((done ++ [e]) ++ l)%list
      by now rewrite <- app_assoc.
    apply IH. now apply grouped_step.
Qed.

Lemma group_by_file_grouped (errors : list NormError) :
  grouped (group_by_file errors) errors.
Proof.
  apply (grouped_fold errors [] []). split; [constructor | reflexivity].
Qed.

Lemma at_key_app (k : Z * Z) (a b : list NormError) :
  at_key k (a ++ b)%list = (at_key k a ++ at_key k b)%list.
Proof. apply filter_app. Qed.

Lemma errors_of_app (f : string) (a b : list NormError) :
  errors_of f (a ++ b)%list = (errors_of f a ++ errors_of f b)%list.
Proof. apply filter_app. Qed.

(** The errors of one path and one position among those of several
    files: file by file. *)
Lemma at_key_errors_of_files (k : Z * Z) (filepath : string)
    (check : string -> list NormError) (files : list string) :
  at_key k (errors_of filepath (flat_map check files)) =
  flat_map (fun f => at_key k (errors_of filepath (check f))) files.
Proof.
  induction files as [|f files IH]; simpl; [reflexivity|].
  now rewrite errors_of_app, at_key_app, IH.
Qed.

(** The errors [run] hands to the reporter: those of each checked file,
    in the order the files were checked. *)
Lemma run_errors (w : World) (self : PythonNorminette) (paths : list string) :
  self_errors (snd (fst (run w self paths))) =
  flat_map (fun f => fst (check_file w f)) (checked_files w paths).
Proof.
  unfold run. rewrite run_paths. cbn [app].
  destruct (_ =? _)%Z; reflexivity.
Qed.

(** C7.  For each file path of the report, the errors printed under it
    are the errors with that path, printed in order of line and then
    column; errors at the same line and column stay in the order in
    which they were appended; for the errors of one checked file that
    order is type-hint errors, docstring errors, flake8 errors, and for
    the errors of a run it is that of the files checked, one after the
    other. *)
Theorem report_sorted_stable (errors : list NormError) (filepath : string)
    (file_errors : list NormError) :
  In (filepath, file_errors) (group_by_file errors) ->
  file_errors = errors_of filepath errors
  /\ print_errors errors =
     flat_map (fun item => print_file (fst item) (snd item))
       (group_by_file errors)
  /\ print_file filepath file_errors =
     (ESC ++ "[1m" ++ filepath ++ ESC ++ "[0m")
       :: (map format_error (sorted file_errors) ++ [EmptyString])%list
  /\ StronglySorted position_le (sorted file_errors)
  /\ Permutation (sorted file_errors) file_errors
  /\ (forall k,
         at_key k (sorted file_errors) = at_key k (errors_of filepath errors))
  /\ (forall w path tree k,
         read_and_parse w path = Parsed tree ->
         errors = fst (check_file w path) ->
         at_key k (sorted file_errors) =
         (at_key k (errors_of filepath (_check_type_hints tree path))
            ++ at_key k (errors_of filepath (_check_docstrings w tree path))
            ++ at_key k (errors_of filepath (fst (_check_flake8 w path))))%list)
  /\ (forall w self paths k,
         errors = self_errors (snd (fst (run w self paths))) ->
         at_key k (sorted file_errors) =
         flat_map
           (fun f => at_key k (errors_of filepath (fst (check_file w f))))
           (checked_files w paths)).
Proof.
  intros Hin.
  assert (Hfe : file_errors = errors_of filepath errors).
  { destruct (group_by_file_grouped errors) as [Hnd Hget].
    apply (dict_get_in _ _ _ Hnd) in Hin. rewrite Hget in Hin.
    destruct (errors_of filepath errors); [discriminate | congruence]. }
  split; [exact Hfe|]. split; [now destruct errors|]. split; [reflexivity|].
  split; [apply sorted_sorted|]. split; [apply sorted_perm|].
  split; [|split].
  - intros k. now rewrite sorted_at_key, Hfe.
  - intros w path tree k Hparse Herrors.
    rewrite sorted_at_key, Hfe, Herrors, (check_file_parsed _ _ _ Hparse).
    now rewrite !errors_of_app, !at_key_app.
  - intros w self paths k Herrors.
    rewrite sorted_at_key, Hfe, Herrors, run_errors.
    apply at_key_errors_of_files.
Qed.

(* ===================================================================== *)
(** ** The properties on sample inputs *)
(* ===================================================================== *)

(** [def h(x: int, self) -> int] has [self], without annotation, as its
    second parameter; [def p(x, /) -> int] has the positional-only
    parameter [x] without annotation.  For neither function does the
    check report anything. *)
Lemma self_anywhere_and_positional_only_not_reported :
  (~ ((exists r, Fn.name Samples.def_h = "__" ++ r)
      /\ (exists r, Fn.name Samples.def_h = r ++ "__"))
   /\ nth_error (Args.args (Fn.args Samples.def_h)) 1 =
      Some (mk_arg "self" None)
   /\ _check_type_hints Samples.module_h "a.py" = []
   /\ ~ In (mkNormError "a.py" 1 0 "TYPE_HINT"
              "Argument 'self' in function 'h' missing type hint" "Error")
           (_check_type_hints Samples.module_h "a.py"))
  /\
  (~ ((exists r, Fn.name Samples.def_p = "__" ++ r)
      /\ (exists r, Fn.name Samples.def_p = r ++ "__"))
   /\ Args.posonlyargs (Fn.args Samples.def_p) = [mk_arg "x" None]
   /\ _check_type_hints Samples.module_p "a.py" = []
   /\ ~ In (mkNormError "a.py" 1 0 "TYPE_HINT"
              "Argument 'x' in function 'p' missing type hint" "Error")
           (_check_type_hints Samples.module_p "a.py")).
Proof.
  split; repeat split;
    try (intros [[r Hr] _]; discriminate Hr);
    intros H; vm_compute in H; exact H.
Qed.

(** flake8 prints a good line and then a line whose line number is [x]:
    the adapter warns and still returns the error of the good line. *)
Lemma flake8_keeps_errors_before_bad_line :
  run_flake8 Samples.world_bad_second "a.py" =
    Completed Samples.stdout_bad_second
  /\ Py.int "x" = Raise "invalid literal for int() with base 10: 'x'"
  /\ _check_flake8 Samples.world_bad_second "a.py" =
     ([NormError_ "a.py" 1 2 "E1" "msg"],
      [flake8_failed "invalid literal for int() with base 10: 'x'"])
  /\ fst (_check_flake8 Samples.world_bad_second "a.py") <> [].
Proof.
  repeat split. intros H. vm_compute in H. discriminate H.
Qed.

Lemma exit_code_zero_iff_no_errors_witness :
  fst (fst (run Samples.world_f_x init ["a.py"])) = 1%Z.
Proof.
  apply (exit_code_zero_iff_no_errors Samples.world_f_x init ["a.py"]).
  vm_compute. discriminate.
Defined.

Lemma syntax_error_single_finding_witness :
  check_file Samples.world_syntax_error "a.py" =
  ([mkNormError "a.py" 3 0 "SYNTAX" "Syntax error: invalid syntax" "Error"],
   []).
Proof.
  apply (syntax_error_single_finding Samples.world_syntax_error "a.py"
           "invalid syntax" (Some 3%Z) None).
  reflexivity.
Defined.

Lemma missing_return_reported_once_witness :
  In (mkNormError "a.py" 1 0 "TYPE_HINT"
        "Function 'f' missing return type hint" "Error")
     (_check_type_hints Samples.module_f_x "a.py").
Proof.
  apply (missing_return_reported_once Samples.module_f_x "a.py"
           Samples.def_f_x).
  - apply subtree_child with (p := Samples.module_f_x).
    + apply subtree_here.
    + simpl. left. reflexivity.
  - intros [[r Hr] _]. discriminate Hr.
  - reflexivity.
Defined.

Lemma unannotated_args_reported_witness :
  In (mkNormError "a.py" 4 4 "TYPE_HINT"
        "Argument 'y' in function 'g' missing type hint" "Error")
     (_check_type_hints Samples.module_g "a.py").
Proof.
  assert (Hsub : subtree Samples.module_g (ANode (FunctionDef Samples.def_g))).
  { apply subtree_child with (p := Samples.module_g).
    - apply subtree_here.
    - simpl. left. reflexivity. }
  assert (Hname : ~ ((exists r, Fn.name Samples.def_g = "__" ++ r)
                     /\ (exists r, Fn.name Samples.def_g = r ++ "__"))).
  { intros [[r Hr] _]. discriminate Hr. }
  apply (proj1 (unannotated_args_reported Samples.module_g "a.py"
                  Samples.def_g Hsub Hname)
           (mk_arg "y" None)).
  - simpl. right. right. right. left. reflexivity.
  - reflexivity.
  - discriminate.
  - discriminate.
Defined.

Lemma dunder_functions_exempt_from_type_hints_witness :
  hints_at "a.py" (ANode (FunctionDef Samples.def_init)) = []
  /\ _check_type_hints Samples.module_C "a.py" =
     (hints_over "a.py" (firstn 2 (walk Samples.module_C))
        ++ hints_over "a.py" (skipn 3 (walk Samples.module_C)))%list
  /\ hints_at "a.py" (AArguments (Fn.args Samples.def_init)) = []
  /\ (forall a, hints_at "a.py" (AArg a) = [])
  /\ is_dunder "__init__" = true.
Proof.
  apply (dunder_functions_exempt_from_type_hints Samples.module_C "a.py"
           Samples.def_init (firstn 2 (walk Samples.module_C))
           (skipn 3 (walk Samples.module_C))).
  - reflexivity.
  - exists "init__". reflexivity.
  - exists "__init". reflexivity.
Defined.

Lemma docstring_errors_witness :
  In (mkNormError "a.py" 1 0 "DOCSTRING" "Class 'C' missing docstring" "Error")
     (_check_docstrings Samples.empty_world Samples.module_C "a.py")
  /\ In (mkNormError "a.py" 2 4 "DOCSTRING"
           "Function '__init__' missing docstring" "Error")
        (_check_docstrings Samples.empty_world Samples.module_C "a.py")
  /\ docs_at Samples.empty_world "a.py" (ANode (FunctionDef Samples.def_str))
     = [].
Proof.
  assert (HC : subtree Samples.module_C (ANode (ClassDef Samples.class_C))).
  { apply subtree_child with (p := Samples.module_C).
    - apply subtree_here.
    - simpl. left. reflexivity. }
  pose proof (docstring_errors Samples.empty_world Samples.module_C "a.py")
    as [Hclass [Hfun Hmagic]].
  split; [|split].
  - apply (Hclass Samples.class_C HC).
    intros [text [rest H]]. discriminate H.
  - apply (Hfun Samples.def_init).
    + apply subtree_child with (p := ANode (ClassDef Samples.class_C)).
      * exact HC.
      * simpl. left. reflexivity.
    + intros [text [rest H]]. discriminate H.
    + right. reflexivity.
  - apply (Hmagic Samples.def_str).
    + apply subtree_child with (p := ANode (ClassDef Samples.class_C)).
      * exact HC.
      * simpl. right. left. reflexivity.
    + exists "str__". reflexivity.
    + exists "__str". reflexivity.
    + discriminate.
Defined.

Lemma only_positional_list_inspected_witness :
  exists d,
    subtree Samples.module_f_x (ANode (FunctionDef d))
    /\ is_dunder (Fn.name d) = false
    /\ ((Fn.returns d = None
         /\ missing_arg_hint "a.py" Samples.def_f_x (mk_arg "x" None) =
            missing_return "a.py" d)
        \/ exists a, In a (Args.args (Fn.args d))
                     /\ reported a = true
                     /\ missing_arg_hint "a.py" Samples.def_f_x (mk_arg "x" None) =
                        missing_arg_hint "a.py" d a).
Proof.
  apply (proj1 only_positional_list_inspected Samples.module_f_x "a.py").
  vm_compute. right. left. reflexivity.
Defined.

Lemma async_functions_invisible_witness :
  _check_type_hints Samples.module_k "a.py" = []
  /\ _check_docstrings Samples.empty_world Samples.module_k "a.py" = [].
Proof.
  destruct (async_functions_invisible Samples.empty_world Samples.module_k
              "a.py" Samples.def_k [Samples.module_k]
              (skipn 2 (walk Samples.module_k)) eq_refl)
    as [Hhints [Hdocs _]].
  split; [exact Hhints | exact Hdocs].
Defined.

Lemma report_sorted_stable_witness :
  map message (sorted Samples.three_errors) = ["second"; "third"; "first"]
  /\ StronglySorted position_le (sorted Samples.three_errors).
Proof.
  destruct (report_sorted_stable Samples.three_errors "a.py"
              Samples.three_errors)
    as [_ [_ [_ [Hsorted _]]]].
  - simpl. left. reflexivity.
  - split; [reflexivity | exact Hsorted].
Defined.

Lemma flake8_failures_contained_witness :
  _check_flake8 Samples.world_bad_second "a.py" =
  (flat_map flake8_at ["a.py:1:2: E1 msg"],
   [flake8_failed "invalid literal for int() with base 10: 'x'"]).
Proof.
  apply (proj2 (flake8_failures_contained Samples.world_bad_second "a.py")
           Samples.stdout_bad_second ["a.py:1:2: E1 msg"]
           "a.py:x:3: E2 msg" []).
  - reflexivity.
  - reflexivity.
  - constructor; [|constructor].
    exists [NormError_ "a.py" 1 2 "E1" "msg"]. reflexivity.
  - reflexivity.
Defined.

(* ===================================================================== *)
(** ** Further properties of the rule checks and of the checker *)
(* ===================================================================== *)

Lemma flat_map_nil_iff {A B : Type} (f : A -> list B) (l : list A) :
  flat_map f l = [] <-> forall x, In x l -> f x = [].
Proof.
  induction l as [|x l IH]; simpl.
  - split; [intros _ y [] | reflexivity].
  - split.
    + intros H. apply app_eq_nil in H. destruct H as [Hx Hl].
      intros y [<-|Hy]; [assumption | now apply IH].
    + intros H. rewrite (H x (or_introl eq_refl)). apply IH.
      intros y Hy. apply H. now right.
Qed.

Lemma filter_nil_iff {A : Type} (p : A -> bool) (l : list A) :
  filter p l = [] <-> forall x, In x l -> p x = false.
Proof.
  induction l as [|x l IH]; simpl.
  - split; [intros _ y [] | reflexivity].
  - destruct (p x) eqn:Hx; split.
    + discriminate.
    + intros H. rewrite (H x (or_introl eq_refl)) in Hx. discriminate.
    + intros H y [<-|Hy]; [assumption | now apply IH].
    + intros H. apply IH. intros y Hy. apply H. now right.
Qed.

Lemma reported_false_iff (a : arg) : reported a = false <-> arg_passes a.
Proof.
  unfold reported, arg_passes.
  rewrite andb_false_iff, negb_false_iff, orb_true_iff, !String.eqb_eq.
  destruct (Arg.annotation a); split; intros H.
  - left. discriminate.
  - now right.
  - destruct H as [H|H]; [now right | discriminate].
  - destruct H as [H|H]; [congruence | now left].
Qed.

Lemma no_docstring_false_iff (w : World) (body : list node) :
  no_docstring w body = false <-> documented w body.
Proof.
  unfold no_docstring, get_docstring, documented.
  destruct body as [|[ | | | | [ | | | | |[s|] | | ] | | | ] rest];
    try (split; [discriminate | intros [text [tl [H _]]]; discriminate H]).
  rewrite String.eqb_neq. split.
  - intros H. now exists s, rest.
  - intros [text [tl [H Hne]]]. injection H as -> _. exact Hne.
Qed.

(** X1.  A file has no error exactly when it is read and parsed and each
    of the three checks returns nothing; a file that cannot be read or
    parsed always has one. *)
Theorem check_file_clean_iff (w : World) (filepath : string) :
  fst (check_file w filepath) = [] <->
  exists tree,
    read_and_parse w filepath = Parsed tree
    /\ _check_type_hints tree filepath = []
    /\ _check_docstrings w tree filepath = []
    /\ fst (_check_flake8 w filepath) = [].
Proof.
  destruct (read_and_parse w filepath) as [tree|msg l o|e] eqn:Hp.
  - rewrite (check_file_parsed _ _ _ Hp). split.
    + intros H. apply app_eq_nil in H. destruct H as [H1 H].
      apply app_eq_nil in H. destruct H as [H2 H3]. now exists tree.
    + intros [t [Ht [H1 [H2 H3]]]]. injection Ht as <-.
      now rewrite H1, H2, H3.
  - unfold check_file. rewrite Hp. simpl.
    split; [discriminate | intros [t [Ht _]]; discriminate Ht].
  - unfold check_file. rewrite Hp. simpl.
    split; [discriminate | intros [t [Ht _]]; discriminate Ht].
Qed.

Lemma flake8_line_severity (errors errors' : list NormError) (l : string) :
  flake8_line errors l = Ok errors' ->
  Forall (fun e => severity e = "Error") errors ->
  Forall (fun e => severity e = "Error") errors'.
Proof.
  unfold flake8_line.
  destruct (String.eqb l EmptyString); [congruence|].
  destruct (4 <=? _)%nat; [|congruence].
  destruct (Py.int (nth 1 _ _)); [|discriminate].
  destruct (Py.int (nth 2 _ _)); [|discriminate].
  intros H Hall. injection H as <-. apply Forall_app. split; [assumption|].
  now repeat constructor.
Qed.

Lemma flake8_lines_severity (lines : list string) (errors : list NormError) :
  Forall (fun e => severity e = "Error") errors ->
  Forall (fun e => severity e = "Error") (fst (flake8_lines errors lines)).
Proof.
  revert errors. induction lines as [|l lines IH]; intros errors H; simpl.
  - exact H.
  - destruct (flake8_line errors l) as [errors'|e] eqn:Hl; [|exact H].
    apply IH. eapply flake8_line_severity; eauto.
Qed.

(** X2.  Every error the checker returns has severity [Error], whichever
    check made it, so the reporter prints every line in red: the yellow
    branch is never taken. *)
Theorem checker_errors_are_red (w : World) (filepath : string)
    (e : NormError) :
  In e (fst (check_file w filepath)) ->
  severity e = "Error"
  /\ exists rest, format_error e = ESC ++ "[31mError:" ++ rest.
Proof.
  intros Hin.
  assert (Hsev : severity e = "Error").
  { destruct (read_and_parse w filepath) as [tree|msg l o|x] eqn:Hp.
    - rewrite (check_file_parsed _ _ _ Hp) in Hin.
      rewrite check_type_hints_flat, check_docstrings_flat in Hin.
      apply in_app_or in Hin. destruct Hin as [Hin|Hin].
      + apply in_flat_map in Hin. destruct Hin as [n [_ Hin]].
        destruct n as [[ | d | | | | | | ] | | ]; try destruct Hin.
        destruct (is_dunder (Fn.name d)) eqn:Hd.
        * unfold hints_at, type_hints_node in Hin. rewrite Hd in Hin.
          destruct Hin.
        * rewrite hints_at_function in Hin by assumption.
          apply in_app_or in Hin. destruct Hin as [Hin|Hin].
          -- destruct (Fn.returns d); [destruct Hin|].
             destruct Hin as [<-|[]]. reflexivity.
          -- apply in_map_iff in Hin. destruct Hin as [a [<- _]]. reflexivity.
      + apply in_app_or in Hin. destruct Hin as [Hin|Hin].
        * apply in_flat_map in Hin. destruct Hin as [n [_ Hin]].
          unfold docs_at, docstrings_node in Hin.
          destruct n as [[ | d | | c | | | | ] | | ]; try destruct Hin.
          -- destruct (is_magic _); [destruct Hin|].
             destruct (no_docstring _ _); [|destruct Hin].
             destruct Hin as [<-|[]]. reflexivity.
          -- destruct (no_docstring _ _); [|destruct Hin].
             destruct Hin as [<-|[]]. reflexivity.
        * revert Hin. unfold _check_flake8.
          destruct (run_flake8 w filepath) as [stdout| |x];
            try (intros []).
          destruct (String.eqb stdout EmptyString); [intros []|].
          pose proof (flake8_lines_severity
                        (Str.split Py.LF (Str.strip stdout)) []
                        (Forall_nil _)) as Hall.
          destruct (flake8_lines [] _) as [errors [x|]]; simpl in *;
            intros Hin; exact (proj1 (Forall_forall _ _) Hall e Hin).
    - unfold check_file in Hin. rewrite Hp in Hin.
      destruct Hin as [<-|[]]. reflexivity.
    - unfold check_file in Hin. rewrite Hp in Hin.
      destruct Hin as [<-|[]]. reflexivity. }
  split; [exact Hsev|].
  unfold format_error. rewrite Hsev. simpl String.eqb. cbv iota.
  eexists. unfold ESC. simpl. reflexivity.
Qed.

(** X3.  Every error of the two rule checks carries the path that was
    passed in and the code of its check, and sits at the line and column
    of a function or class definition of the tree: a parameter error is
    at its function's position, never at the parameter's. *)
Theorem rule_errors_located (w : World) (tree : AST) (filepath : string)
    (e : NormError) :
  In e (_check_type_hints tree filepath
          ++ _check_docstrings w tree filepath)%list ->
  file e = filepath
  /\ (code e = "TYPE_HINT" \/ code e = "DOCSTRING")
  /\ ((exists d, subtree tree (ANode (FunctionDef d))
                 /\ line e = Fn.lineno d /\ col e = Fn.col_offset d)
      \/ (exists c, subtree tree (ANode (ClassDef c))
                    /\ line e = Cls.lineno c /\ col e = Cls.col_offset c)).
Proof.
  intros Hin. rewrite check_type_hints_flat, check_docstrings_flat in Hin.
  apply in_app_or in Hin.
  destruct Hin as [Hin|Hin]; apply in_flat_map in Hin;
    destruct Hin as [n [Hn Hin]]; apply walk_subtree in Hn.
  - destruct n as [[ | d | | | | | | ] | | ]; try destruct Hin.
    destruct (is_dunder (Fn.name d)) eqn:Hd.
    { unfold hints_at, type_hints_node in Hin. rewrite Hd in Hin.
      destruct Hin. }
    rewrite hints_at_function in Hin by assumption.
    assert (He : e = missing_return filepath d
                 \/ exists a, e = missing_arg_hint filepath d a).
    { apply in_app_or in Hin. destruct Hin as [Hin|Hin].
      - destruct (Fn.returns d); [destruct Hin|].
        destruct Hin as [<-|[]]. now left.
      - apply in_map_iff in Hin. destruct Hin as [a [<- _]]. right. now exists a. }
    destruct He as [->|[a ->]]; (split; [reflexivity|]);
      (split; [now left|]); left; exists d; repeat split; assumption.
  - unfold docs_at, docstrings_node in Hin.
    destruct n as [[ | d | | c | | | | ] | | ]; try destruct Hin.
    + destruct (is_magic _); [destruct Hin|].
      destruct (no_docstring _ _); [|destruct Hin].
      destruct Hin as [<-|[]]. split; [reflexivity|]. split; [now right|].
      left. exists d. repeat split; assumption.
    + destruct (no_docstring _ _); [|destruct Hin].
      destruct Hin as [<-|[]]. split; [reflexivity|]. split; [now right|].
      right. exists c. repeat split; assumption.
Qed.

(** X4.  The type-hint check returns nothing exactly when every function
    definition of the tree is dunder-style or has a return annotation
    and, in [node.args.args], only parameters that are annotated or
    named [self] or [cls]. *)
Theorem type_hints_silent_iff (tree : AST) (filepath : string) :
  _check_type_hints tree filepath = [] <->
  forall d,
    subtree tree (ANode (FunctionDef d)) ->
    is_dunder (Fn.name d) = true
    \/ (Fn.returns d <> None
        /\ forall a, In a (Args.args (Fn.args d)) -> arg_passes a).
Proof.
  rewrite check_type_hints_flat, flat_map_nil_iff. split.
  - intros H d Hd. apply walk_subtree in Hd. specialize (H _ Hd).
    destruct (is_dunder (Fn.name d)) eqn:Hdun; [now left | right].
    rewrite hints_at_function in H by assumption.
    apply app_eq_nil in H. destruct H as [Hret Hargs]. split.
    + destruct (Fn.returns d); [discriminate | discriminate Hret].
    + intros a Ha. apply reported_false_iff.
      apply map_eq_nil in Hargs.
      exact (proj1 (filter_nil_iff _ _) Hargs a Ha).
  - intros H n Hn. apply walk_subtree in Hn.
    destruct n as [[ | d | | | | | | ] | | ]; try reflexivity.
    destruct (H d Hn) as [Hdun|[Hret Hargs]].
    + unfold hints_at, type_hints_node. now rewrite Hdun.
    + destruct (is_dunder (Fn.name d)) eqn:Hdun.
      { unfold hints_at, type_hints_node. now rewrite Hdun. }
      rewrite hints_at_function by assumption.
      destruct (Fn.returns d); [|congruence]. simpl.
      replace (filter reported (Args.args (Fn.args d))) with (@nil arg);
        [reflexivity|].
      symmetry. apply filter_nil_iff. intros a Ha.
      apply reported_false_iff. now apply Hargs.
Qed.

(** X5.  The docstring check returns nothing exactly when every class of
    the tree, and every function that is not a dunder other than
    [__init__], starts with a string constant whose cleaned text is not
    empty. *)
Theorem docstrings_silent_iff (w : World) (tree : AST) (filepath : string) :
  _check_docstrings w tree filepath = [] <->
  (forall c, subtree tree (ANode (ClassDef c)) -> documented w (Cls.body c))
  /\ (forall d,
         subtree tree (ANode (FunctionDef d)) ->
         is_magic (Fn.name d) = true \/ documented w (Fn.body d)).
Proof.
  rewrite check_docstrings_flat, flat_map_nil_iff. split.
  - intros H. split.
    + intros c Hc. apply walk_subtree in Hc. specialize (H _ Hc).
      unfold docs_at, docstrings_node in H.
      apply no_docstring_false_iff.
      destruct (no_docstring w (Cls.body c)); [discriminate H | reflexivity].
    + intros d Hd. apply walk_subtree in Hd. specialize (H _ Hd).
      unfold docs_at, docstrings_node in H.
      destruct (is_magic (Fn.name d)); [now left | right].
      apply no_docstring_false_iff.
      destruct (no_docstring w (Fn.body d)); [discriminate H | reflexivity].
  - intros [Hc Hd] n Hn. apply walk_subtree in Hn.
    unfold docs_at, docstrings_node.
    destruct n as [[ | d | | c | | | | ] | | ]; try reflexivity.
    + destruct (Hd d Hn) as [Hm|Hdoc]; [now rewrite Hm|].
      apply no_docstring_false_iff in Hdoc. rewrite Hdoc.
      now destruct (is_magic _).
    + pose proof (proj2 (no_docstring_false_iff w _) (Hc c Hn)) as Hdoc.
      now rewrite Hdoc.
Qed.

(** X6.  A docstring whose cleaned text is empty counts as missing: at
    the visit of a class, or of a checked function, whose body starts
    with such a string constant, the check adds the same error as when
    there is no docstring. *)
Theorem empty_docstring_reported (w : World) (tree : AST)
    (filepath text : string) (pre post : list AST) :
  cleandoc w text = EmptyString ->
  (forall c rest,
      walk tree = (pre ++ ANode (ClassDef c) :: post)%list ->
      Cls.body c = Expr (Constant (CStr text)) :: rest ->
      _check_docstrings w tree filepath =
      (docs_over w filepath pre ++ [class_missing_docstring filepath c]
         ++ docs_over w filepath post)%list)
  /\
  (forall d rest,
      walk tree = (pre ++ ANode (FunctionDef d) :: post)%list ->
      Fn.body d = Expr (Constant (CStr text)) :: rest ->
      is_magic (Fn.name d) = false ->
      _check_docstrings w tree filepath =
      (docs_over w filepath pre ++ [function_missing_docstring filepath d]
         ++ docs_over w filepath post)%list).
Proof.
  intros Hclean. split.
  - intros c rest Hw Hbody. rewrite (check_docstrings_split _ _ _ _ _ _ Hw).
    unfold docs_at, docstrings_node, no_docstring, get_docstring.
    now rewrite Hbody, Hclean.
  - intros d rest Hw Hbody Hm. rewrite (check_docstrings_split _ _ _ _ _ _ Hw).
    unfold docs_at, docstrings_node, no_docstring, get_docstring.
    now rewrite Hm, Hbody, Hclean.
Qed.

(* ===================================================================== *)
(** ** Reading one line of flake8 output *)
(* ===================================================================== *)

Lemma splitn_length (sep : ascii) (s : string) (n : nat) :
  List.length (Str.splitn sep n s) <= S (count_char sep s).
Proof.
  revert n. induction s as [|c r IH]; intros [|k]; simpl; try lia.
  destruct (Ascii.eqb c sep); simpl.
  - specialize (IH k). lia.
  - specialize (IH (S k)).
    destruct (Str.splitn sep (S k) r); simpl in *; lia.
Qed.

Lemma splitn_first (sep : ascii) (a b : string) (k : nat) :
  all_chars (fun c => negb (Ascii.eqb c sep)) a = true ->
  Str.splitn sep (S k) (a ++ String sep b) = a :: Str.splitn sep k b.
Proof.
  induction a as [|c a IH]; intros Ha.
  - simpl. now rewrite Ascii.eqb_refl.
  - simpl in Ha. apply andb_true_iff in Ha. destruct Ha as [Hc Ha].
    apply negb_true_iff in Hc.
    change (String c a ++ String sep b) with (String c (a ++ String sep b)).
    cbn [Str.splitn]. rewrite Hc, (IH Ha). reflexivity.
Qed.

Lemma splitn_none (sep : ascii) (a : string) (k : nat) :
  all_chars (fun c => negb (Ascii.eqb c sep)) a = true ->
  Str.splitn sep k a = [a].
Proof.
  destruct k as [|k]; [now destruct a|].
  induction a as [|c a IH]; intros Ha; [reflexivity|].
  simpl in Ha. apply andb_true_iff in Ha. destruct Ha as [Hc Ha].
  apply negb_true_iff in Hc. cbn [Str.splitn]. now rewrite Hc, (IH Ha).
Qed.

Lemma all_chars_impl (p q : ascii -> bool) (s : string) :
  (forall c, p c = true -> q c = true) ->
  all_chars p s = true -> all_chars q s = true.
Proof.
  intros Hpq. induction s as [|c r IH]; simpl; [reflexivity|].
  rewrite !andb_true_iff. intros [Hc Hr]. auto.
Qed.

Lemma rstrip_not_space (s : string) :
  all_chars not_space s = true -> Str.rstrip s = s.
Proof.
  induction s as [|c r IH]; simpl; [reflexivity|].
  rewrite andb_true_iff. intros [Hc Hr]. rewrite (IH Hr).
  apply negb_true_iff in Hc. rewrite Hc. now destruct r.
Qed.

Lemma lstrip_not_space (s : string) :
  all_chars not_space s = true -> Str.lstrip s = s.
Proof.
  destruct s as [|c r]; simpl; [reflexivity|].
  rewrite andb_true_iff. intros [Hc _].
  apply negb_true_iff in Hc. now rewrite Hc.
Qed.

Lemma strip_not_space (s : string) :
  all_chars not_space s = true -> Str.strip s = s.
Proof.
  intros H. unfold Str.strip.
  now rewrite (lstrip_not_space _ H), (rstrip_not_space _ H).
Qed.

Lemma rstrip_append (a b : string) :
  Str.rstrip (a ++ b) =
  match Str.rstrip b with
  | EmptyString => Str.rstrip a
  | String _ _ => a ++ Str.rstrip b
  end.
Proof.
  induction a as [|c a IH]; simpl.
  - now destruct (Str.rstrip b).
  - rewrite IH. destruct (Str.rstrip b) as [|c' r']; [reflexivity|].
    now destruct a.
Qed.

(** The digits of a decimal numeral, scanned back. *)
Lemma scan_of_uint (u : Decimal.uint) (acc : Z) (ndigits : nat) :
  Py.scan acc ndigits false (NilEmpty.string_of_uint u) =
  Some (uint_value acc u,
        ndigits + String.length (NilEmpty.string_of_uint u),
        EmptyString).
Proof.
  revert acc ndigits.
  induction u as [|u IH|u IH|u IH|u IH|u IH|u IH|u IH|u IH|u IH|u IH];
    intros acc ndigits;
    try (cbn [NilEmpty.string_of_uint Py.scan uint_value String.length];
         change (Py.is_digit _) with true; cbv iota;
         rewrite IH, Nat.add_succ_r; reflexivity).
  simpl. now rewrite Nat.add_0_r.
Qed.

Lemma uint_value_acc (u : Decimal.uint) (acc : positive) :
  uint_value (Zpos acc) u = Zpos (Pos.of_uint_acc u acc).
Proof.
  revert acc.
  induction u as [|u IH|u IH|u IH|u IH|u IH|u IH|u IH|u IH|u IH|u IH];
    intros acc; cbn [uint_value Pos.of_uint_acc]; [reflexivity|..];
    rewrite <- IH; f_equal; lia.
Qed.

Lemma uint_value_of_uint (u : Decimal.uint) :
  uint_value 0 u = Z.of_N (Pos.of_uint u).
Proof.
  induction u as [|u IH|u IH|u IH|u IH|u IH|u IH|u IH|u IH|u IH|u IH];
    cbn [uint_value Pos.of_uint]; [reflexivity | exact IH |..];
    apply uint_value_acc.
Qed.

Lemma uint_chars (u : Decimal.uint) :
  all_chars Py.is_digit (NilEmpty.string_of_uint u) = true.
Proof. induction u; simpl; auto. Qed.

Lemma digit_not_space (c : ascii) : Py.is_digit c = true -> not_space c = true.
Proof.
  unfold Py.is_digit, not_space, Str.isspace.
  rewrite andb_true_iff, !Nat.leb_le. intros [H1 H2].
  apply negb_true_iff, orb_false_iff.
  split; apply andb_false_iff; right; apply Nat.leb_gt; lia.
Qed.

Lemma digit_not_colon (c : ascii) : Py.is_digit c = true -> not_colon c = true.
Proof.
  unfold Py.is_digit, not_colon.
  rewrite andb_true_iff, !Nat.leb_le. intros [H1 H2].
  apply negb_true_iff, Ascii.eqb_neq. intros ->.
  change (nat_of_ascii ":") with 58 in H2. lia.
Qed.

Lemma positive_digits (p : positive) :
  exists c r,
    NilEmpty.string_of_uint (Pos.to_uint p) = String c r
    /\ Py.is_digit c = true.
Proof.
  pose proof (DecimalPos.Unsigned.to_uint_nonnil p) as Hnn.
  pose proof (uint_chars (Pos.to_uint p)) as Hall.
  destruct (NilEmpty.string_of_uint (Pos.to_uint p)) as [|c r] eqn:Hs.
  - destruct (Pos.to_uint p); try discriminate Hs. congruence.
  - simpl in Hall. apply andb_true_iff in Hall. now exists c, r.
Qed.

Lemma str_of_positive (p : positive) :
  Py.str_of_int (Zpos p) = NilEmpty.string_of_uint (Pos.to_uint p).
Proof.
  unfold Py.str_of_int. simpl.
  pose proof (DecimalPos.Unsigned.to_uint_nonnil p).
  now destruct (Pos.to_uint p).
Qed.

Lemma str_of_negative (p : positive) :
  Py.str_of_int (Zneg p) =
  String "-" (NilEmpty.string_of_uint (Pos.to_uint p)).
Proof.
  unfold Py.str_of_int. simpl.
  pose proof (DecimalPos.Unsigned.to_uint_nonnil p).
  now destruct (Pos.to_uint p).
Qed.

Lemma scan_of_positive (p : positive) :
  Py.scan 0 0 false (NilEmpty.string_of_uint (Pos.to_uint p)) =
  Some (Zpos p, String.length (NilEmpty.string_of_uint (Pos.to_uint p)),
        EmptyString).
Proof.
  rewrite scan_of_uint.
  now rewrite uint_value_of_uint, DecimalPos.Unsigned.of_to.
Qed.

Lemma digit_not_c_space (c : ascii) :
  Py.is_digit c = true -> Py.c_isspace c = false.
Proof.
  unfold Py.is_digit, Py.c_isspace.
  rewrite andb_true_iff, !Nat.leb_le. intros [H1 H2].
  apply orb_false_iff. split.
  - apply Nat.eqb_neq. lia.
  - apply andb_false_iff. right. apply Nat.leb_gt. lia.
Qed.

(** [int] on the digits of a positive number, with or without a minus
    sign in front. *)
Lemma int_of_digits (p : positive) (negative : bool) :
  String.length (NilEmpty.string_of_uint (Pos.to_uint p)) <= 4300 ->
  Py.int ((if negative then "-" else EmptyString)
            ++ NilEmpty.string_of_uint (Pos.to_uint p)) =
  Ok (if negative then Zneg p else Zpos p).
Proof.
  intros Hlen. destruct (positive_digits p) as [c [r [Hs Hc]]].
  pose proof (scan_of_positive p) as Hscan. rewrite Hs in *.
  assert (Hplus : Ascii.eqb c "+" = false)
    by (apply Ascii.eqb_neq; intros ->; discriminate Hc).
  assert (Hminus : Ascii.eqb c "-" = false)
    by (apply Ascii.eqb_neq; intros ->; discriminate Hc).
  assert (Hus : Ascii.eqb c "_" = false)
    by (apply Ascii.eqb_neq; intros ->; discriminate Hc).
  assert (Hlimit : (Py.max_str_digits <? String.length (String c r))%nat
                   = false)
    by (apply Nat.ltb_ge; exact Hlen).
  assert (Hskip : Py.skip_space (String c r) = String c r)
    by (cbn [Py.skip_space]; now rewrite (digit_not_c_space c Hc)).
  assert (Hsign : Py.split_sign (String c r) = (false, String c r))
    by (cbn [Py.split_sign]; now rewrite Hplus, Hminus).
  assert (Hskip' : forall x, Py.skip_space (String "-" x) = String "-" x)
    by reflexivity.
  assert (Hsign' : forall x, Py.split_sign (String "-" x) = (true, x))
    by reflexivity.
  unfold Py.int. destruct negative; cbn [append].
  - rewrite Hskip', Hsign'. cbn [Py.starts_with_underscore].
    rewrite Hus, Hscan, Hlimit. reflexivity.
  - rewrite Hskip, Hsign. cbn [Py.starts_with_underscore].
    rewrite Hus, Hscan, Hlimit. reflexivity.
Qed.

(** The characters [str] writes for an integer: digits after a possible
    minus sign, so no white space and no colon. *)
Lemma str_of_int_chars (n : Z) :
  all_chars not_space (Py.str_of_int n) = true
  /\ all_chars not_colon (Py.str_of_int n) = true.
Proof.
  destruct n as [|p|p].
  - split; reflexivity.
  - rewrite str_of_positive.
    split; eapply all_chars_impl; try apply uint_chars;
      auto using digit_not_space, digit_not_colon.
  - rewrite str_of_negative. cbn [all_chars].
    split; (rewrite andb_true_iff; split; [reflexivity|]);
      eapply all_chars_impl; try apply uint_chars;
      auto using digit_not_space, digit_not_colon.
Qed.

(** [int(str(n)) == n] for a number of at most 4300 digits. *)
Lemma int_of_str (n : Z) :
  digit_count n <= 4300 -> Py.int (Py.str_of_int n) = Ok n.
Proof.
  unfold digit_count. destruct n as [|p|p]; cbn [Z.abs].
  - reflexivity.
  - rewrite str_of_positive. exact (int_of_digits p false).
  - rewrite str_of_positive, str_of_negative. exact (int_of_digits p true).
Qed.

Lemma not_space_not_blank (c : ascii) :
  not_space c = true -> negb (Ascii.eqb c " ") = true.
Proof.
  intros H. apply negb_true_iff, Ascii.eqb_neq. intros ->. discriminate H.
Qed.

(** X7.  A line in the format the adapter asks flake8 for is read back
    as the error it was written from: the path, the two numbers, the
    code and the text, the text without white space at its end.  The
    path must hold no colon, the code no white space, and each number
    at most 4300 digits, the most [int] reads. *)
Theorem flake8_reads_formatted_line (errors : list NormError)
    (path : string) (row col : Z) (code text : string) :
  all_chars not_colon path = true ->
  all_chars not_space code = true ->
  code <> EmptyString ->
  digit_count row <= 4300 ->
  digit_count col <= 4300 ->
  flake8_line errors (flake8_format path row col code text) =
  Ok (errors ++ [NormError_ path row col code (Str.rstrip text)])%list.
Proof.
  intros Hpath Hcode Hne Hrow Hcol.
  unfold flake8_line, flake8_format. cbn [append].
  match goal with
  | |- context [String.eqb ?l EmptyString] =>
      assert (Hline : String.eqb l EmptyString = false)
        by (apply String.eqb_neq; destruct path; discriminate)
  end.
  rewrite Hline.
  rewrite (splitn_first ":" path _ 2 Hpath).
  rewrite (splitn_first ":" _ _ 1 (proj2 (str_of_int_chars row))).
  rewrite (splitn_first ":" _ _ 0 (proj2 (str_of_int_chars col))).
  cbn [Str.splitn List.length Nat.leb nth].
  rewrite (int_of_str row Hrow), (int_of_str col Hcol).
  assert (Hstrip : Str.strip (String " " (code ++ String " " text)) =
                   match Str.rstrip text with
                   | EmptyString => code
                   | String _ _ => code ++ String " " (Str.rstrip text)
                   end).
  { unfold Str.strip. cbn [Str.lstrip]. change (Str.isspace " ") with true.
    cbv iota.
    assert (Hl : Str.lstrip (code ++ String " " text) =
                 code ++ String " " text).
    { destruct code as [|c r]; [congruence|]. simpl in *.
      apply andb_true_iff in Hcode. destruct Hcode as [Hc _].
      apply negb_true_iff in Hc. now rewrite Hc. }
    rewrite Hl, rstrip_append. cbn [Str.rstrip].
    change (Str.isspace " ") with true.
    destruct (Str.rstrip text); [apply rstrip_not_space, Hcode | reflexivity]. }
  rewrite Hstrip.
  assert (Hblank : all_chars (fun c => negb (Ascii.eqb c " ")) code = true)
    by (eapply all_chars_impl; [apply not_space_not_blank | exact Hcode]).
  destruct (Str.rstrip text) as [|c r].
  - now rewrite (splitn_none " " code 1 Hblank).
  - now rewrite (splitn_first " " code _ 0 Hblank).
Qed.

(** X8.  A line of flake8 output with fewer than three colons is passed
    over: it adds no error and raises nothing, whatever it holds. *)
Theorem flake8_drops_short_line (errors : list NormError) (line : string) :
  count_char ":" line < 3 ->
  flake8_line errors line = Ok errors.
Proof.
  intros H. unfold flake8_line.
  destruct (String.eqb line EmptyString); [reflexivity|].
  pose proof (splitn_length ":" line 3) as Hlen.
  destruct (Nat.leb_spec 4 (List.length (Str.splitn ":" 3 line)));
    [lia | reflexivity].
Qed.

Lemma flake8_lines_all_read (lines : list string) (errors : list NormError) :
  Forall flake8_reads lines ->
  flake8_lines errors lines = ((errors ++ flat_map flake8_at lines)%list, None).
Proof.
  intros H. revert errors.
  induction H as [|l lines [added Hl] _ IH]; intros errors; simpl.
  - now rewrite app_nil_r.
  - rewrite flake8_line_appends, Hl, IH. unfold flake8_at. rewrite Hl.
    now rewrite app_assoc.
Qed.

(** X9.  When flake8 runs and every line of its output is read without
    an exception, the adapter prints nothing and returns what the lines
    add, in the order of the lines. *)
Theorem flake8_all_lines_read (w : World) (filepath stdout : string) :
  run_flake8 w filepath = Completed stdout ->
  Forall flake8_reads (Str.split Py.LF (Str.strip stdout)) ->
  _check_flake8 w filepath =
  (flat_map flake8_at (Str.split Py.LF (Str.strip stdout)), []).
Proof.
  intros Hrun Hall. unfold _check_flake8. rewrite Hrun.
  destruct (String.eqb_spec stdout EmptyString) as [->|_]; [reflexivity|].
  now rewrite (flake8_lines_all_read _ [] Hall).
Qed.

(* ===================================================================== *)
(** ** Further properties of the runner and of the entry point *)
(* ===================================================================== *)

Lemma checked_files_app (w : World) (a b : list string) :
  checked_files w (a ++ b) = (checked_files w a ++ checked_files w b)%list.
Proof. apply flat_map_app. Qed.

Lemma aggregate_count_app (w : World) (a b : list string) :
  aggregate_count w (a ++ b) = aggregate_count w a + aggregate_count w b.
Proof.
  unfold aggregate_count. now rewrite checked_files_app, map_app, list_sum_app.
Qed.

Lemma checked_files_skipped (w : World) (paths : list string) :
  Forall (skipped w) paths -> checked_files w paths = [].
Proof.
  intros H. unfold checked_files. apply flat_map_nil_iff.
  intros p Hp. destruct (proj1 (Forall_forall _ _) H p Hp) as [Hf Hd].
  destruct (is_file w p).
  - destruct (String.eqb_spec (suffix w p) ".py") as [Heq|_];
      [now destruct (Hf eq_refl) | reflexivity].
  - now rewrite (Hd eq_refl).
Qed.

Lemma run_unfold (w : World) (self : PythonNorminette) (paths : list string) :
  run w self paths =
  let all_errors :=
    flat_map (fun f => fst (check_file w f)) (checked_files w paths) in
  let checked :=
    (files_checked self + Z.of_nat (List.length (checked_files w paths)))%Z in
  let total := Z.of_nat (List.length all_errors) in
  let printed :=
    (flat_map (fun f => snd (check_file w f)) (checked_files w paths)
       ++ print_errors all_errors ++ [rule])%list in
  if (total =? 0)%Z
  then (0%Z, mkPythonNorminette all_errors checked total,
        (printed ++ [norme_ok checked])%list)
  else (1%Z, mkPythonNorminette all_errors checked total,
        (printed ++ [norme_ko total checked])%list).
Proof. unfold run. rewrite run_paths. reflexivity. Qed.

(** X10.  When flake8 is not installed, the warning is printed once for
    every checked file that parses, before the report, and never for a
    file that does not parse; the run still ends with the rule and the
    summary line. *)
Theorem flake8_warning_per_parsed_file (w : World) (self : PythonNorminette)
    (paths : list string) :
  (forall f, In f (checked_files w paths) ->
             run_flake8 w f = RaisesFileNotFoundError) ->
  exists summary,
    snd (run w self paths) =
    (map (fun _ => flake8_not_installed)
       (filter (parses w) (checked_files w paths))
       ++ print_errors (self_errors (snd (fst (run w self paths))))
       ++ [rule; summary])%list.
Proof.
  intros Habsent. rewrite run_unfold. cbv zeta.
  set (files := checked_files w paths) in *.
  assert (Hwarn : flat_map (fun f => snd (check_file w f)) files =
                  map (fun _ => flake8_not_installed)
                    (filter (parses w) files)).
  { clearbody files. induction files as [|f files IH]; [reflexivity|].
    simpl. rewrite IH by (intros g Hg; apply Habsent; now right).
    unfold check_file, parses, _check_flake8.
    rewrite (Habsent f (or_introl eq_refl)).
    destruct (read_and_parse w f); reflexivity. }
  rewrite Hwarn.
  destruct (_ =? _)%Z; cbn [fst snd self_errors]; eexists;
    rewrite <- !app_assoc; reflexivity.
Qed.

(** X11.  [files_checked] is never reset: a run adds the number of files
    it checks to the count the object already has, while [total_errors]
    and [errors] are replaced.  After two runs on one object the file
    count is that of both runs and the error count that of the second. *)
Theorem files_checked_accumulates (w : World) (self : PythonNorminette)
    (first second : list string) :
  let after_first := snd (fst (run w self first)) in
  let after_second := snd (fst (run w after_first second)) in
  files_checked after_first =
    (files_checked self
     + Z.of_nat (List.length (checked_files w first)))%Z
  /\ files_checked after_second =
    (files_checked self
     + Z.of_nat (List.length (checked_files w first))
     + Z.of_nat (List.length (checked_files w second)))%Z
  /\ total_errors after_second = Z.of_nat (aggregate_count w second)
  /\ self_errors after_second =
     flat_map (fun f => fst (check_file w f)) (checked_files w second).
Proof.
  cbv zeta. rewrite !run_unfold. cbv zeta.
  unfold aggregate_count. rewrite <- length_flat_map_sum.
  repeat match goal with
         | |- context [if ?b then _ else _] => destruct b
         end; cbn [fst snd files_checked total_errors self_errors];
    repeat split.
Qed.

(** X12.  Paths that are neither a [.py] file nor a directory are passed
    over without a word: when every path is such a path, and when there
    is no path, nothing is checked, the exit code is 0 and the only
    lines printed are the rule and the OK line. *)
Theorem nothing_to_check_passes (w : World) (self : PythonNorminette)
    (paths : list string) :
  Forall (skipped w) paths ->
  run w self paths =
  (0%Z, mkPythonNorminette [] (files_checked self) 0,
   [rule; norme_ok (files_checked self)]).
Proof.
  intros H. rewrite run_unfold, (checked_files_skipped _ _ H). cbv zeta.
  simpl. now rewrite Z.add_0_r.
Qed.

(** X13.  The exit code of a run over two lists of paths, one after the
    other, is 0 exactly when the run over each list alone exits
    with 0. *)
Theorem exit_code_of_joined_paths (w : World)
    (self self1 self2 : PythonNorminette) (first second : list string) :
  fst (fst (run w self (first ++ second))) = 0%Z <->
  fst (fst (run w self1 first)) = 0%Z /\ fst (fst (run w self2 second)) = 0%Z.
Proof.
  assert (Hcode : forall s p, fst (fst (run w s p)) = 0%Z <->
                              aggregate_count w p = 0).
  { intros s p. rewrite run_unfold. cbv zeta.
    unfold aggregate_count. rewrite <- length_flat_map_sum.
    destruct (Z.eqb_spec (Z.of_nat (List.length
                (flat_map (fun f => fst (check_file w f))
                   (checked_files w p)))) 0);
      cbn [fst]; split; intros; try lia; discriminate. }
  rewrite !Hcode, aggregate_count_app. lia.
Qed.

(** X14.  One checked file that cannot be read or parsed is enough for
    exit code 1, whatever the other files give. *)
Theorem unparsed_file_fails_run (w : World) (self : PythonNorminette)
    (paths : list string) (f : string) :
  In f (checked_files w paths) ->
  parses w f = false ->
  fst (fst (run w self paths)) = 1%Z.
Proof.
  intros Hin Hp. rewrite run_unfold. cbv zeta.
  assert (Hlen : List.length
                   (flat_map (fun f => fst (check_file w f))
                      (checked_files w paths)) <> 0).
  { apply in_split in Hin. destruct Hin as [a [b ->]].
    rewrite flat_map_app, length_app. simpl. rewrite length_app.
    unfold parses in Hp. unfold check_file at 2.
    destruct (read_and_parse w f); [discriminate| |]; simpl; lia. }
  destruct (Z.eqb_spec (Z.of_nat (List.length
              (flat_map (fun f => fst (check_file w f))
                 (checked_files w paths)))) 0); [lia | reflexivity].
Qed.

(** X15.  The process exits with 0 exactly when at least one path
    argument is given and the files checked for those arguments have no
    error; otherwise with 1.  Without a path argument it prints the
    usage lines and checks nothing. *)
Theorem main_exit_code (w : World) (argv : list string) :
  (fst (main w argv) = 0%Z <->
   2 <= List.length argv /\ aggregate_count w (tl argv) = 0)
  /\ (fst (main w argv) = 0%Z \/ fst (main w argv) = 1%Z)
  /\ (List.length argv < 2 -> main w argv = (1%Z, usage)).
Proof.
  unfold main. destruct (Nat.ltb_spec (List.length argv) 2) as [Hlt|Hge].
  - repeat split; intros; try (simpl in *; lia); try discriminate.
  - rewrite run_unfold. cbv zeta.
    unfold aggregate_count. rewrite <- length_flat_map_sum.
    destruct (Z.eqb_spec (Z.of_nat (List.length
                (flat_map (fun f => fst (check_file w f))
                   (checked_files w (tl argv))))) 0);
      cbn [fst]; repeat split; intros; try lia; try discriminate; auto.
Qed.

(* ===================================================================== *)
(** ** Further properties of the reporter *)
(* ===================================================================== *)

Lemma dict_in_keys (k : string) (files : dict) :
  dict_in k files = existsb (fun k' => String.eqb k' k) (map fst files).
Proof.
  induction files as [|[k' l] r IH]; simpl; [reflexivity | now rewrite IH].
Qed.

Lemma group_error_keys (files : dict) (e : NormError) :
  map fst (group_error files e) =
  if dict_in (file e) files then map fst files
  else (map fst files ++ [file e])%list.
Proof.
  unfold group_error. rewrite dict_append_keys.
  destruct (dict_in (file e) files); [reflexivity | now rewrite map_app].
Qed.

Lemma fold_group_keys (l : list NormError) (files : dict) :
  map fst (fold_left group_error l files) =
  (map fst files ++ first_seen (map fst files) (map file l))%list.
Proof.
  revert files. induction l as [|e l IH]; intros files; simpl.
  - now rewrite app_nil_r.
  - rewrite IH, group_error_keys, <- dict_in_keys.
    destruct (dict_in (file e) files); [reflexivity|].
    now rewrite <- app_assoc.
Qed.

(** X16.  The report has one block for each distinct file path among the
    errors, and the blocks come in the order in which the paths first
    occur in the list of errors. *)
Theorem report_files_in_first_seen_order (errors : list NormError) :
  map fst (group_by_file errors) = first_seen [] (map file errors)
  /\ NoDup (map fst (group_by_file errors)).
Proof.
  split.
  - unfold group_by_file. now rewrite fold_group_keys.
  - apply group_by_file_grouped.
Qed.

Lemma dict_append_perm (k : string) (e : NormError) (files : dict) :
  dict_in k files = true ->
  Permutation (flat_map snd (dict_append k e files))
    (e :: flat_map snd files).
Proof.
  induction files as [|[k' l] r IH]; simpl; [discriminate|].
  destruct (String.eqb k' k); simpl; intros H.
  - rewrite <- app_assoc. simpl. symmetry. apply Permutation_middle.
  - rewrite (IH H). symmetry. apply Permutation_middle.
Qed.

Lemma group_error_perm (files : dict) (e : NormError) :
  Permutation (flat_map snd (group_error files e))
    (e :: flat_map snd files).
Proof.
  unfold group_error. destruct (dict_in (file e) files) eqn:Hin.
  - now apply dict_append_perm.
  - rewrite dict_append_perm.
    + rewrite flat_map_app. simpl. now rewrite app_nil_r.
    + rewrite dict_in_get, dict_get_snoc, String.eqb_refl.
      now destruct (dict_get (file e) files).
Qed.

Lemma fold_group_perm (l : list NormError) (files : dict) :
  Permutation (flat_map snd (fold_left group_error l files))
    (flat_map snd files ++ l).
Proof.
  revert files. induction l as [|e l IH]; intros files; simpl.
  - now rewrite app_nil_r.
  - rewrite IH, group_error_perm. simpl. apply Permutation_middle.
Qed.

Lemma sorted_groups_perm (files : dict) :
  Permutation (flat_map (fun item => sorted (snd item)) files)
    (flat_map snd files).
Proof.
  induction files as [|[k l] r IH]; simpl; [constructor|].
  apply Permutation_app; [apply sorted_perm | exact IH].
Qed.

Lemma print_blocks_length (files : dict) :
  List.length (flat_map (fun item => print_file (fst item) (snd item)) files) =
  List.length (flat_map (fun item => sorted (snd item)) files)
  + 2 * List.length files.
Proof.
  induction files as [|[k l] r IH]; simpl; [reflexivity|].
  rewrite !length_app, length_map, IH. simpl. lia.
Qed.

(** X17.  The report loses and repeats nothing: the errors printed under
    the file headers, taken together, are the errors given, each as many
    times; no header is without an error; and the number of lines
    printed is the number of errors plus two for each file path. *)
Theorem report_prints_each_error_once (errors : list NormError) :
  Permutation
    (flat_map (fun item => sorted (snd item)) (group_by_file errors)) errors
  /\ (forall filepath file_errors,
         In (filepath, file_errors) (group_by_file errors) ->
         file_errors <> [])
  /\ List.length (print_errors errors) =
     List.length errors + 2 * List.length (group_by_file errors).
Proof.
  assert (Hperm : Permutation
            (flat_map (fun item => sorted (snd item)) (group_by_file errors))
            errors).
  { rewrite sorted_groups_perm. unfold group_by_file.
    now rewrite fold_group_perm. }
  split; [exact Hperm|]. split.
  - intros filepath file_errors Hin.
    destruct (group_by_file_grouped errors) as [Hnd Hget].
    apply (dict_get_in _ _ _ Hnd) in Hin. rewrite Hget in Hin.
    destruct (errors_of filepath errors); [discriminate|].
    injection Hin as <-. discriminate.
  - rewrite <- (Permutation_length Hperm), <- print_blocks_length.
    now destruct errors.
Qed.

(* ===================================================================== *)
(** ** The further properties on sample inputs *)
(* ===================================================================== *)

Lemma check_file_clean_iff_witness :
  fst (check_file Samples.world_clean "a.py") = [].
Proof.
  apply (proj2 (check_file_clean_iff Samples.world_clean "a.py")).
  exists Samples.module_h. repeat split.
Defined.

Lemma checker_errors_are_red_witness :
  severity (missing_return "a.py" Samples.def_f_x) = "Error"
  /\ exists rest,
       format_error (missing_return "a.py" Samples.def_f_x) =
       ESC ++ "[31mError:" ++ rest.
Proof.
  apply (checker_errors_are_red Samples.world_f_x "a.py").
  vm_compute. left. reflexivity.
Defined.

Lemma rule_errors_located_witness :
  file (function_missing_docstring "a.py" Samples.def_f_x) = "a.py"
  /\ (code (function_missing_docstring "a.py" Samples.def_f_x) = "TYPE_HINT"
      \/ code (function_missing_docstring "a.py" Samples.def_f_x) = "DOCSTRING")
  /\ ((exists d,
          subtree Samples.module_f_x (ANode (FunctionDef d))
          /\ line (function_missing_docstring "a.py" Samples.def_f_x) =
             Fn.lineno d
          /\ col (function_missing_docstring "a.py" Samples.def_f_x) =
             Fn.col_offset d)
      \/ (exists c,
             subtree Samples.module_f_x (ANode (ClassDef c))
             /\ line (function_missing_docstring "a.py" Samples.def_f_x) =
                Cls.lineno c
             /\ col (function_missing_docstring "a.py" Samples.def_f_x) =
                Cls.col_offset c)).
Proof.
  apply (rule_errors_located Samples.empty_world Samples.module_f_x "a.py").
  vm_compute. right. right. left. reflexivity.
Defined.

Lemma type_hints_silent_iff_witness :
  _check_type_hints Samples.module_C "a.py" = [].
Proof.
  apply (proj2 (type_hints_silent_iff Samples.module_C "a.py")).
  intros d Hd. apply walk_subtree in Hd. vm_compute in Hd.
  repeat (destruct Hd as [Hd|Hd];
          [first [discriminate Hd | injection Hd as <-; left; reflexivity]|]).
  destruct Hd.
Defined.

Lemma docstrings_silent_iff_witness :
  documented Samples.empty_world (Fn.body Samples.def_h).
Proof.
  destruct (proj2 (proj1 (docstrings_silent_iff Samples.empty_world
                            Samples.module_h "a.py") eq_refl)
              Samples.def_h) as [Hm|Hdoc].
  - apply subtree_child with (p := Samples.module_h).
    + apply subtree_here.
    + simpl. left. reflexivity.
  - discriminate Hm.
  - exact Hdoc.
Defined.

Lemma empty_docstring_reported_witness :
  _check_docstrings Samples.empty_world Samples.module_D "a.py" =
  (docs_over Samples.empty_world "a.py" [Samples.module_D]
     ++ [class_missing_docstring "a.py" Samples.class_D]
     ++ docs_over Samples.empty_world "a.py"
          (skipn 2 (walk Samples.module_D)))%list.
Proof.
  apply (proj1 (empty_docstring_reported Samples.empty_world Samples.module_D
                  "a.py" EmptyString [Samples.module_D]
                  (skipn 2 (walk Samples.module_D)) eq_refl)
           Samples.class_D []).
  - reflexivity.
  - reflexivity.
Defined.

Lemma flake8_reads_formatted_line_witness :
  flake8_line [] (flake8_format "a.py" 3 1 "E302" "expected 2 blank lines") =
  Ok [NormError_ "a.py" 3 1 "E302" (Str.rstrip "expected 2 blank lines")].
Proof.
  apply (flake8_reads_formatted_line [] "a.py" 3 1 "E302"
           "expected 2 blank lines").
  - reflexivity.
  - reflexivity.
  - discriminate.
  - vm_compute. lia.
  - vm_compute. lia.
Defined.

Lemma flake8_drops_short_line_witness :
  flake8_line [] "a.py:x: E1 msg" = Ok [].
Proof.
  apply (flake8_drops_short_line [] "a.py:x: E1 msg").
  simpl. lia.
Defined.

Lemma flake8_all_lines_read_witness :
  _check_flake8 Samples.world_one_line "a.py" =
  (flat_map flake8_at (Str.split Py.LF (Str.strip "a.py:1:2: E1 msg")), []).
Proof.
  apply (flake8_all_lines_read Samples.world_one_line "a.py"
           "a.py:1:2: E1 msg").
  - reflexivity.
  - constructor; [|constructor].
    exists [NormError_ "a.py" 1 2 "E1" "msg"]. reflexivity.
Defined.

Lemma flake8_warning_per_parsed_file_witness :
  exists summary,
    snd (run Samples.world_f_x init ["a.py"]) =
    (map (fun _ => flake8_not_installed)
       (filter (parses Samples.world_f_x)
          (checked_files Samples.world_f_x ["a.py"]))
       ++ print_errors
            (self_errors (snd (fst (run Samples.world_f_x init ["a.py"]))))
       ++ [rule; summary])%list.
Proof.
  apply (flake8_warning_per_parsed_file Samples.world_f_x init ["a.py"]).
  intros f Hf. reflexivity.
Defined.

Lemma nothing_to_check_passes_witness :
  run Samples.empty_world init ["missing.txt"] =
  (0%Z, mkPythonNorminette [] (files_checked init) 0,
   [rule; norme_ok (files_checked init)]).
Proof.
  apply (nothing_to_check_passes Samples.empty_world init ["missing.txt"]).
  constructor; [|constructor].
  split; [discriminate | reflexivity].
Defined.

Lemma exit_code_of_joined_paths_witness :
  fst (fst (run Samples.world_clean init (["a.py"] ++ ["b.txt"])%list)) = 0%Z.
Proof.
  apply (proj2 (exit_code_of_joined_paths Samples.world_clean init init init
                  ["a.py"] ["b.txt"])).
  split; reflexivity.
Defined.

Lemma unparsed_file_fails_run_witness :
  fst (fst (run Samples.world_syntax_error init ["a.py"])) = 1%Z.
Proof.
  apply (unparsed_file_fails_run Samples.world_syntax_error init ["a.py"]
           "a.py").
  - simpl. left. reflexivity.
  - reflexivity.
Defined.

Lemma main_exit_code_witness :
  main Samples.world_clean ["norminette_py"] = (1%Z, usage)
  /\ fst (main Samples.world_clean ["norminette_py"; "a.py"]) = 0%Z.
Proof.
  split.
  - apply (main_exit_code Samples.world_clean ["norminette_py"]).
    simpl. lia.
  - apply (proj2 (proj1 (main_exit_code Samples.world_clean
                           ["norminette_py"; "a.py"]))).
    split; [simpl; lia | reflexivity].
Defined.

Lemma report_prints_each_error_once_witness :
  Samples.three_errors <> [].
Proof.
  apply (proj1 (proj2 (report_prints_each_error_once Samples.three_errors))
           "a.py").
  simpl. left. reflexivity.
Defined.
